(** * Vitals overview widget (esm-patient-vitals-app)

    A shallow embedding of
    [packages/esm-patient-vitals-app/src/vitals/vitals-overview.component.tsx]:
    the column comparators, the row normalizer, the configuration look-ups,
    the render branches, the print callbacks and the blood-pressure helper
    behind the Open Clinical button.

    Conventions.
    - An optional property ([number | undefined], [string | undefined], an
      optional object) is an [option]; [None] is JavaScript's [undefined].
    - Vital-sign readings are integers ([Z]); the only facts about JavaScript
      numbers that the component relies on are subtraction, comparison with
      zero, truthiness (zero is falsy) and conversion to a decimal string.
    - Code that can raise a [TypeError] (a property read on [undefined])
      returns a [completion]. *)

From Stdlib Require Import ZArith Lia.
From stdpp Require Import base option list strings gmap sorting pretty.

Open Scope string_scope.
Open Scope Z_scope.

(** ** JavaScript values and operators *)

Inductive JsError := TypeError.

(** The outcome of evaluating an expression: a value, or a thrown error. *)
Inductive completion (A : Type) : Type :=
  | Normal (a : A)
  | Throw (e : JsError).
Arguments Normal {A} a.
Arguments Throw {A} e.

#[global] Instance completion_ret : MRet completion := @Normal.
#[global] Instance completion_bind : MBind completion := λ A B f m,
  match m with
  | Normal a => f a
  | Throw e => Throw e
  end.

(** [o.p] where [o] may be [undefined]: reading a property of [undefined]
    throws. *)
Definition member {A B} (o : option A) (p : A → B) : completion B :=
  match o with
  | Some a => Normal (p a)
  | None => Throw TypeError
  end.

(** [o.method(...)] where [o] may be [undefined]. *)
Definition receiver {A} (o : option A) : completion A :=
  member o (λ a, a).

(** [a ?? d]. *)
Definition nullish {A} (a : option A) (d : A) : A :=
  match a with Some x => x | None => d end.

(** Truthiness of a [number | undefined]: [undefined] and [0] are falsy. *)
Definition truthy_number (x : option Z) : bool :=
  match x with
  | Some n => negb (n =? 0)
  | None => false
  end.

(** Truthiness of a [string | undefined]: [undefined] and [""] are falsy. *)
Definition truthy_string (x : option string) : bool :=
  match x with
  | Some s => negb (String.eqb s "")
  | None => false
  end.

(** Truthiness of a [boolean | undefined]. *)
Definition truthy_boolean (x : option bool) : bool :=
  match x with Some b => b | None => false end.

(** [a - b] on [number | undefined]. The component evaluates it only under
    a guard that makes both operands truthy, hence numbers; an [undefined]
    operand (whose difference is not a number) reads as [0] here. *)
Definition js_sub (a b : option Z) : Z := nullish a 0 - nullish b 0.

(** [x > 0] on [number | undefined]: [undefined > 0] is [false]. *)
Definition js_gt0 (x : option Z) : bool :=
  match x with Some n => 0 <? n | None => false end.

(** A table cell produced by [value ?? '--']: the number itself or a string. *)
Inductive cell :=
  | CNum (n : Z)
  | CStr (s : string).

(** String conversion inside a template literal or a [+] concatenation. *)
Definition number_to_string (n : Z) : string := pretty n.

Definition string_or_undefined (s : option string) : string :=
  nullish s "undefined".

(** ** Data model *)

(** [PatientVitalsAndBiometrics]: one measurement record. *)
Record PatientVitals := {
  id : string;
  date : string;
  temperature : option Z;
  systolic : option Z;
  diastolic : option Z;
  pulse : option Z;
  respiratoryRate : option Z;
  spo2 : option Z;
  bloodPressureRenderInterpretation : option string;
  pulseRenderInterpretation : option string;
  spo2RenderInterpretation : option string;
  temperatureRenderInterpretation : option string;
  respiratoryRateRenderInterpretation : option string;
}.

(** [VitalsTableRow]: the spread record plus the render fields. *)
Record VitalsTableRow := {
  vitalSigns :> PatientVitals;
  dateRender : string;
  bloodPressureRender : string;
  pulseRender : cell;
  spo2Render : cell;
  temperatureRender : cell;
  respiratoryRateRender : cell;
}.

Module fhir.
Record Coding := { code : option string }.
Record CodeableConcept := { coding : option (list Coding) }.
Record Identifier := {
  value : option string;
  type : option CodeableConcept;
}.
Record Address := { city : option string }.
Record Patient := {
  id : option string;
  birthDate : option string;
  gender : option string;
  address : option (list Address);
  identifier : option (list Identifier);
}.
End fhir.

(** The configuration object returned by [useConfig()]; every key may be
    missing from the object. *)
Module Config.
Record Vitals := { showPrintButton : option bool }.
Record Concepts := {
  temperatureUuid : option string;
  systolicBloodPressureUuid : option string;
  pulseUuid : option string;
  respiratoryRateUuid : option string;
  oxygenSaturationUuid : option string;
}.
Record ExcludedIdentifierTypes := { uuids : option (list string) }.
Record ConfigObject := {
  vitals : option Vitals;
  concepts : option Concepts;
  excludePatientIdentifierCodeTypes : option ExcludedIdentifierTypes;
}.
End Config.
Abbreviation ConfigObject := Config.ConfigObject.

(** The collaborators the component imports from the framework. *)
Class Collaborators := {
  (** [t(key, fallback)] of [useTranslation()] *)
  t : string → string → string;
  (** [formatDate(parseDate(d), { mode: 'wide', time: true })] *)
  formatDate : string → string;
  (** [new Date(d).getTime()] *)
  getTime : string → Z;
  getPatientName : fhir.Patient → string;
  age : option string → option string;
}.

(** ** Column model *)

Record VitalsTableHeader := {
  key : string;
  header : string;
  isSortable : bool;
  sortFunc : VitalsTableRow → VitalsTableRow → Z;
}.

(** Modelled from the spec: [withUnit] is imported from [../common], which is
    not part of the sources at hand.  The column header concatenates the
    translated label with the resolved unit, as in ["Temp (°C)"]; when the
    unit is the empty string the header is the label alone. *)
Definition withUnit (label unit : string) : string :=
  if String.eqb unit "" then label else label +:+ " (" +:+ unit +:+ ")".

(** [conceptUnits.get(uuid) ?? ''] on the [Map] of concept units. *)
Definition unitOf (conceptUnits : gmap string string) (uuid : option string)
  : string :=
  nullish (uuid ≫= λ k, conceptUnits !! k) "".

(** [Array.prototype.sort(compareFn)]: a stable sort; an element moves in
    front of another only when [compareFn] orders it at or before it. *)
Fixpoint array_insert {A} (compareFn : A → A → Z) (x : A) (l : list A)
  : list A :=
  match l with
  | [] => [x]
  | y :: l' =>
      if compareFn x y <=? 0 then x :: l
      else y :: array_insert compareFn x l'
  end.

Definition array_sort {A} (compareFn : A → A → Z) (l : list A) : list A :=
  foldr (array_insert compareFn) [] l.

(** [array.includes(x)] on an array of strings. *)
Definition includes (l : list string) (x : option string) : bool :=
  match x with
  | Some s => bool_decide (s ∈ l)
  | None => false
  end.

(** [Array.prototype.filter] with a callback that may throw: the first
    throw aborts the whole call. *)
Fixpoint filterM {A} (p : A → completion bool) (l : list A)
  : completion (list A) :=
  match l with
  | [] => Normal []
  | x :: l' =>
      keep ← p x;
      rest ← filterM p l';
      mret (if keep : bool then x :: rest else rest)
  end.

(** The [data] array of [useVitalsAndBiometrics], shared by every reader of
    [vitals]; [None] while there is no data.  Code that reads or mutates the
    array runs in [Eff]. *)
Definition Store : Type := option (list PatientVitals).

Definition Eff (A : Type) : Type := Store → completion (A * Store).

#[global] Instance Eff_ret : MRet Eff := λ A a σ, Normal (a, σ).
#[global] Instance Eff_bind : MBind Eff := λ A B f m σ,
  match m σ with
  | Normal (a, σ') => f a σ'
  | Throw e => Throw e
  end.

Definition lift {A} (m : completion A) : Eff A := λ σ,
  match m with
  | Normal a => Normal (a, σ)
  | Throw e => Throw e
  end.

(** [vitals.sort(compareFn)]: sorts the shared array in place and returns
    that same array. *)
Definition vitals_sort (compareFn : PatientVitals → PatientVitals → Z)
  : Eff (list PatientVitals) := λ σ,
  match σ with
  | Some array =>
      let sorted := array_sort compareFn array in
      Normal (sorted, Some sorted)
  | None => Throw TypeError
  end.

Record PatientDetails := {
  name : string;
  patientAge : option string;
  patientGender : option string;
  location : option string;
  identifiers : list (option string);
}.

Record DataFetchError := { message : string }.

(** What the component returns. *)
Inductive TableOrChart :=
  | VitalsChart
      (** receives the shared [vitals] array itself, not a copy *)
  | PaginatedVitals (isPrinting : bool) (patientDetails : PatientDetails)
      (tableHeaders : list VitalsTableHeader)
      (tableRows : option (list VitalsTableRow)).

Record WidgetCard := {
  title : string;
  inlineLoading : bool;
  printButton : bool;
  content : TableOrChart;
  openClinicalButton : bool;
}.

Inductive View :=
  | DataTableSkeleton
  | ErrorState (error : DataFetchError) (headerTitle : string)
  | Card (card : WidgetCard)
  | EmptyState (displayText headerTitle : string).

(** The printing state of the component: the [isPrinting] state variable,
    the [onBeforeGetContentResolve] ref, and the promises handed to the
    print library.  A promise is named by its creation index; [resolved]
    holds the promises whose [resolve] has been called (calling it again
    changes nothing).  [effectPending] records that a render with a new
    [isPrinting] has been committed and its [useEffect] has still to run. *)
Record PrintState := {
  isPrinting : bool;
  onBeforeGetContentResolve : option nat;
  effectPending : bool;
  promises : nat;
  resolved : gset nat;
}.

(** The values the hooks hand to one render of the component; the [vitals]
    array itself lives in the [Store]. *)
Record Hooks := {
  config : ConfigObject;
  conceptUnits : gmap string string;
  error : option DataFetchError;
  isLoading : bool;
  isValidating : bool;
  chartView : bool;
  printState : PrintState;
}.

(** The order an array is in after [sort(compareFn)]. *)
Definition orderedBy {A} (compareFn : A → A → Z) : relation A :=
  λ x y, compareFn x y ≤ 0.

Section Component.
Context `{Collaborators}.

(** [config.vitals.showPrintButton && !chartView] *)
Definition showPrintButton (config : ConfigObject) (chartView : bool)
  : completion (option bool) :=
  flag ← member (Config.vitals config) Config.showPrintButton;
  mret (match flag with
        | Some true => Some (negb chartView)
        | falsy => falsy
        end).

Definition getGender (gender : option string) : option string :=
  match gender with
  | Some "male" => Some (t "male" "Male")
  | Some "female" => Some (t "female" "Female")
  | Some "other" => Some (t "other" "Other")
  | Some "unknown" => Some (t "unknown" "Unknown")
  | _ => gender
  end.

(** [identifier.type.coding[0].code] *)
Definition identifierCode (identifier : fhir.Identifier)
  : completion (option string) :=
  coding ← member (fhir.type identifier) fhir.coding;
  first ← member coding head;
  member first fhir.code.

(** [!excludePatientIdentifierCodeTypes?.uuids.includes(code)]: the
    optional chain stops at a missing [excludePatientIdentifierCodeTypes]
    without evaluating the argument. *)
Definition keepIdentifier
    (excludePatientIdentifierCodeTypes :
       option Config.ExcludedIdentifierTypes)
    (identifier : fhir.Identifier) : completion bool :=
  match excludePatientIdentifierCodeTypes with
  | None => mret true
  | Some excluded =>
      uuids ← receiver (Config.uuids excluded);
      code ← identifierCode identifier;
      mret (negb (includes uuids code))
  end.

(** [patient?.address?.[0].city] *)
Definition patientLocation (patient : option fhir.Patient)
  : completion (option string) :=
  match patient ≫= fhir.address with
  | None => mret None
  | Some address => member (head address) fhir.city
  end.

Definition patientDetails (config : ConfigObject)
    (patient : option fhir.Patient) : completion PatientDetails :=
  identifiers ←
    match patient ≫= fhir.identifier with
    | None => mret []
    | Some identifier =>
        filterM
          (keepIdentifier (Config.excludePatientIdentifierCodeTypes config))
          identifier
    end;
  location ← patientLocation patient;
  mret {| name := match patient with
                  | Some p => getPatientName p
                  | None => ""
                  end;
          patientAge := age (patient ≫= fhir.birthDate);
          patientGender := getGender (patient ≫= fhir.gender);
          location := location;
          identifiers := fhir.value <$> identifiers |}.

Definition sortFunc_date (valueA valueB : VitalsTableRow) : Z :=
  getTime (date valueA) - getTime (date valueB).

Definition sortFunc_temperature (valueA valueB : VitalsTableRow) : Z :=
  if truthy_number (temperature valueA) && truthy_number (temperature valueB)
  then js_sub (temperature valueA) (temperature valueB)
  else 0.

Definition sortFunc_bloodPressure (valueA valueB : VitalsTableRow) : Z :=
  if truthy_number (systolic valueA) && truthy_number (systolic valueB)
     && truthy_number (diastolic valueA) && truthy_number (diastolic valueB)
  then
    if negb (bool_decide (systolic valueA = systolic valueB))
    then js_sub (systolic valueA) (systolic valueB)
    else js_sub (diastolic valueA) (diastolic valueB)
  else 0.

Definition sortFunc_pulse (valueA valueB : VitalsTableRow) : Z :=
  if truthy_number (pulse valueA) && truthy_number (pulse valueB)
  then js_sub (pulse valueA) (pulse valueB)
  else 0.

Definition sortFunc_respiratoryRate (valueA valueB : VitalsTableRow) : Z :=
  if truthy_number (respiratoryRate valueA)
     && truthy_number (respiratoryRate valueB)
  then js_sub (respiratoryRate valueA) (respiratoryRate valueB)
  else 0.

Definition sortFunc_spo2 (valueA valueB : VitalsTableRow) : Z :=
  if truthy_number (spo2 valueA) && truthy_number (spo2 valueB)
  then js_sub (spo2 valueA) (spo2 valueB)
  else 0.

(** [tableHeaders]; reading [config.concepts.x] throws when the [concepts]
    key is missing. *)
Definition tableHeaders (config : ConfigObject)
    (conceptUnits : gmap string string)
  : completion (list VitalsTableHeader) :=
  temperatureUuid ← member (Config.concepts config) Config.temperatureUuid;
  systolicUuid ←
    member (Config.concepts config) Config.systolicBloodPressureUuid;
  pulseUuid ← member (Config.concepts config) Config.pulseUuid;
  respiratoryRateUuid ←
    member (Config.concepts config) Config.respiratoryRateUuid;
  oxygenSaturationUuid ←
    member (Config.concepts config) Config.oxygenSaturationUuid;
  mret [
    {| key := "dateRender";
       header := t "dateAndTime" "Date and time";
       isSortable := true;
       sortFunc := sortFunc_date |};
    {| key := "temperatureRender";
       header := withUnit (t "temperatureAbbreviated" "Temp")
                          (unitOf conceptUnits temperatureUuid);
       isSortable := true;
       sortFunc := sortFunc_temperature |};
    {| key := "bloodPressureRender";
       header := withUnit (t "bloodPressureAbbreviated" "BP")
                          (unitOf conceptUnits systolicUuid);
       isSortable := true;
       sortFunc := sortFunc_bloodPressure |};
    {| key := "pulseRender";
       header := withUnit (t "pulse" "Pulse")
                          (unitOf conceptUnits pulseUuid);
       isSortable := true;
       sortFunc := sortFunc_pulse |};
    {| key := "respiratoryRateRender";
       header := withUnit (t "respiratoryRateAbbreviated" "R. Rate")
                          (unitOf conceptUnits respiratoryRateUuid);
       isSortable := true;
       sortFunc := sortFunc_respiratoryRate |};
    {| key := "spo2Render";
       header := withUnit (t "spo2" "SpO2")
                          (unitOf conceptUnits oxygenSaturationUuid);
       isSortable := true;
       sortFunc := sortFunc_spo2 |}
  ].

(** ** Record normalizer *)

(** [value ?? '--'] as a table cell. *)
Definition orPlaceholder (value : option Z) : cell :=
  nullish (CNum <$> value) (CStr "--").

(** [${value ?? '--'}] inside a template literal. *)
Definition interpolate (value : option Z) : string :=
  match orPlaceholder value with
  | CNum n => number_to_string n
  | CStr s => s
  end.

(** The callback of [vitals?.map(...)]. *)
Definition tableRow (vitalSigns : PatientVitals) : VitalsTableRow :=
  {| vitalSigns := vitalSigns;
     dateRender := formatDate (date vitalSigns);
     bloodPressureRender :=
       interpolate (systolic vitalSigns) +:+ " / "
         +:+ interpolate (diastolic vitalSigns);
     pulseRender := orPlaceholder (pulse vitalSigns);
     spo2Render := orPlaceholder (spo2 vitalSigns);
     temperatureRender := orPlaceholder (temperature vitalSigns);
     respiratoryRateRender := orPlaceholder (respiratoryRate vitalSigns) |}.

(** [tableRows]: [undefined] while there is no data. *)
Definition tableRows (vitals : option (list PatientVitals))
  : option (list VitalsTableRow) :=
  (λ records : list PatientVitals, tableRow <$> records) <$> vitals.

Definition displayText : string := t "vitalSigns" "vital signs".
Definition headerTitle : string := t "vitals" "Vitals".

(** ** Open Clinical *)

Definition getSortedBP : Eff (list PatientVitals) :=
  sortedVitals ←
    vitals_sort (λ vitalA vitalB,
      getTime (date vitalB) - getTime (date vitalA));
  mret (filter
          (λ vital, js_gt0 (systolic vital) && js_gt0 (diastolic vital) = true)
          sortedVitals).

Definition number_or_undefined (n : option Z) : string :=
  nullish (number_to_string <$> n) "undefined".

(** [handleOpenClinical]: returns the URL assigned to
    [window.location.href]. *)
Definition handleOpenClinical (patient : option fhir.Patient) : Eff string :=
  bp ← getSortedBP;
  lift (
    birthDate ← member patient fhir.birthDate;
    gender ← member patient fhir.gender;
    sbp ← member (bp !! 0%nat) systolic;
    dbp ← member (bp !! 0%nat) diastolic;
    id ← member patient fhir.id;
    mret ("http://localhost:22221/digipath/matt/ht_demo?dob="
            +:+ string_or_undefined birthDate
            +:+ "&gender=" +:+ string_or_undefined gender
            +:+ "&sbp=" +:+ number_or_undefined sbp
            +:+ "&dbp=" +:+ number_or_undefined dbp
            +:+ "&id=" +:+ string_or_undefined id)).

(** ** The component *)

(** The function expression that chooses what is shown (the body of the
    returned fragment).  [getSortedBP()] is called while the card is
    built. *)
Definition render (hooks : Hooks) (showPrintButton : option bool)
    (patientDetails : PatientDetails)
    (tableHeaders : list VitalsTableHeader)
    (tableRows : option (list VitalsTableRow)) : Eff View := λ vitals,
  (if isLoading hooks then mret DataTableSkeleton
   else match error hooks with
   | Some error => mret (ErrorState error headerTitle)
   | None =>
       if truthy_number (Z.of_nat <$> (length <$> vitals)) then
         bp ← getSortedBP;
         mret (Card
           {| title := headerTitle;
              inlineLoading := isValidating hooks;
              printButton := truthy_boolean showPrintButton;
              content :=
                if chartView hooks then VitalsChart
                else PaginatedVitals (isPrinting (printState hooks))
                       patientDetails tableHeaders tableRows;
              openClinicalButton := bool_decide (0 < length bp)%nat |})
       else mret (EmptyState displayText headerTitle)
   end) vitals.

(** One render of [VitalsOverview]: the derived values are computed first,
    in source order, then the view is chosen. *)
Definition VitalsOverview (patient : option fhir.Patient) (hooks : Hooks)
  : Eff View := λ vitals,
  (showPrintButton ← lift (showPrintButton (config hooks) (chartView hooks));
   patientDetails ← lift (patientDetails (config hooks) patient);
   tableHeaders ← lift (tableHeaders (config hooks) (conceptUnits hooks));
   render hooks showPrintButton patientDetails tableHeaders
     (tableRows vitals)) vitals.

Definition openClinicalButtonRendered (view : View) : bool :=
  match view with
  | Card card => openClinicalButton card
  | _ => false
  end.

(** A record that [getSortedBP] keeps. *)
Definition hasBloodPressure (vital : PatientVitals) : Prop :=
  ∃ sbp dbp, systolic vital = Some sbp ∧ diastolic vital = Some dbp
             ∧ 0 < sbp ∧ 0 < dbp.

(** The order [getSortedBP] sorts into: no record is followed by a more
    recent one. *)
Definition newerFirst (vitalA vitalB : PatientVitals) : Prop :=
  getTime (date vitalB) ≤ getTime (date vitalA).

(** ** Printing *)

(** The [documentTitle] handed to the print library. *)
Definition documentTitle (patientDetails : PatientDetails) : string :=
  "OpenMRS - " +:+ name patientDetails +:+ " - " +:+ headerTitle.

Definition idle : PrintState :=
  {| isPrinting := false; onBeforeGetContentResolve := None;
     effectPending := false; promises := 0; resolved := ∅ |}.

(** [setIsPrinting(b)]: a state update to the current value schedules
    nothing. *)
Definition setIsPrinting (b : bool) (s : PrintState) : PrintState :=
  if bool_decide (isPrinting s = b) then s
  else {| isPrinting := b;
          onBeforeGetContentResolve := onBeforeGetContentResolve s;
          effectPending := true;
          promises := promises s;
          resolved := resolved s |}.

(** [onBeforeGetContent]: a new promise is created on every call; its
    resolver is stored in the ref when [patient && headerTitle]. *)
Definition onBeforeGetContent (patient : option fhir.Patient)
    (s : PrintState) : PrintState :=
  let resolve := promises s in
  let s' := {| isPrinting := isPrinting s;
               onBeforeGetContentResolve := onBeforeGetContentResolve s;
               effectPending := effectPending s;
               promises := S (promises s);
               resolved := resolved s |} in
  if bool_decide (is_Some patient) && truthy_string (Some headerTitle) then
    setIsPrinting true
      {| isPrinting := isPrinting s';
         onBeforeGetContentResolve := Some resolve;
         effectPending := effectPending s';
         promises := promises s';
         resolved := resolved s' |}
  else s'.

(** The body of [useEffect(..., [isPrinting])]. *)
Definition printEffect (s : PrintState) : PrintState :=
  {| isPrinting := isPrinting s;
     onBeforeGetContentResolve := onBeforeGetContentResolve s;
     effectPending := false;
     promises := promises s;
     resolved :=
       match onBeforeGetContentResolve s with
       | Some resolve =>
           if isPrinting s then {[ resolve ]} ∪ resolved s else resolved s
       | None => resolved s
       end |}.

(** [onAfterPrint] *)
Definition onAfterPrint (s : PrintState) : PrintState :=
  setIsPrinting false
    {| isPrinting := isPrinting s;
       onBeforeGetContentResolve := None;
       effectPending := effectPending s;
       promises := promises s;
       resolved := resolved s |}.

(** What can happen to the component: the user presses Print
    ([handlePrint] calls [onBeforeGetContent]), React runs the pending
    effect, the print library reports the end of a print. *)
Inductive PrintEvent :=
  | PrintRequest (patient : option fhir.Patient)
  | RunEffect
  | AfterPrint.

Definition printStep (s : PrintState) (e : PrintEvent) : PrintState :=
  match e with
  | PrintRequest patient => onBeforeGetContent patient s
  | RunEffect => if effectPending s then printEffect s else s
  | AfterPrint => onAfterPrint s
  end.

Definition printRun (s : PrintState) (trace : list PrintEvent)
  : PrintState :=
  foldl printStep s trace.

(** The number of promises resolved: each one lets the library capture the
    content once. *)
Definition captures (s : PrintState) : nat := size (resolved s).

Definition isAfterPrint (e : PrintEvent) : bool :=
  match e with AfterPrint => true | _ => false end.

Definition completions (trace : list PrintEvent) : nat :=
  length (filter (λ e, isAfterPrint e = true) trace).

(** What bounds the captures of a run: a promise is resolved only by an
    effect run that is pending while [isPrinting] holds, and such a run
    becomes pending only when [isPrinting] turns from [false] to [true]. *)
Definition balanced (s : PrintState) (done : nat) : Prop :=
  (captures s + (if effectPending s && isPrinting s then 1 else 0)
   ≤ done + (if isPrinting s then 1 else 0))%nat.

(** What every reachable printing state satisfies: while [isPrinting] holds
    a resolver is armed, and armed and resolved promises are promises that
    have been created. *)
Definition wellFormed (s : PrintState) : Prop :=
  (isPrinting s = true → is_Some (onBeforeGetContentResolve s)) ∧
  (∀ resolve, onBeforeGetContentResolve s = Some resolve →
     (resolve < promises s)%nat) ∧
  (∀ resolve, resolve ∈ resolved s → (resolve < promises s)%nat).

End Component.

(** * Current visit summary (esm-patient-chart-app)

    [packages/esm-patient-chart-app/src/visit/visits-widget/current-visit-summary.component.tsx] *)

Module visit.

Record Visit := { uuid : string }.

(** What [useVisit(patientUuid)] returns. *)
Record UseVisit := {
  isLoading : bool;
  currentVisit : option Visit;
  error : option DataFetchError;
  isValidating : bool;
}.

(** The call [launchWorkspace(name, { openedFrom })] behind [launchForm]. *)
Record Launch := { workspace : string; openedFrom : string }.

Inductive View :=
  | InlineLoading (iconDescription description : string)
  | ErrorState (headerTitle : string) (error : DataFetchError)
  | EmptyState (headerTitle displayText : string) (launchForm : Launch)
  | VisitSummary (title : string) (inlineLoading : bool) (visit : Visit)
      (patientUuid : string).

Section Component.
Context `{Collaborators}.

Definition CurrentVisitSummary (patientUuid : string) (hook : UseVisit)
  : View :=
  if isLoading hook then
    InlineLoading (t "loading" "Loading")
      (t "loadingVisit" "Loading current visit...")
  else match error hook with
  | Some error =>
      ErrorState (t "failedToLoadCurrentVisit" "Failed loading current visit")
        error
  | None =>
      match currentVisit hook with
      | None =>
          EmptyState (t "currentVisit" "Current visit")
            (t "noActiveVisitMessage" "active visit")
            {| workspace := "start-visit-workspace-form";
               openedFrom := "patient-chart-current-visit-summary" |}
      | Some currentVisit =>
          VisitSummary (t "currentVisit" "Current visit") (isValidating hook)
            currentVisit patientUuid
      end
  end.

End Component.

End visit.

(** ** Sample data *)

Module Sample.

(** Reads the digits of a timestamp such as ["2024-01-02T10:00"] as one
    number, which orders timestamps of that shape by time. *)
Definition digitsOf (d : string) : Z :=
  foldl (λ acc c,
           let n := Z.of_nat (Ascii.nat_of_ascii c) - 48 in
           if (0 <=? n) && (n <=? 9) then 10 * acc + n else acc)
        0 (String.list_ascii_of_string d).

Definition collaborators : Collaborators :=
  {| t := λ _ fallback, fallback;
     formatDate := λ d, d;
     getTime := digitsOf;
     getPatientName := λ _, "John Wilson";
     age := λ birthDate, birthDate |}.

(** A record without interpretation tags. *)
Definition reading (date : string)
    (temperature systolic diastolic pulse respiratoryRate spo2 : option Z)
  : PatientVitals :=
  {| id := date; date := date;
     temperature := temperature; systolic := systolic;
     diastolic := diastolic; pulse := pulse;
     respiratoryRate := respiratoryRate; spo2 := spo2;
     bloodPressureRenderInterpretation := None;
     pulseRenderInterpretation := None;
     spo2RenderInterpretation := None;
     temperatureRenderInterpretation := None;
     respiratoryRateRenderInterpretation := None |}.

Definition patient : fhir.Patient :=
  {| fhir.id := Some "p-1";
     fhir.birthDate := Some "1972-04-04";
     fhir.gender := Some "male";
     fhir.address := Some [ {| fhir.city := Some "Kampala" |} ];
     fhir.identifier :=
       Some [ {| fhir.value := Some "100GEJ";
                 fhir.type :=
                   Some {| fhir.coding :=
                             Some [ {| fhir.code := Some "05a29f94" |} ] |}
              |} ] |}.

Definition hooks (config : ConfigObject) (error : option DataFetchError)
  : Hooks :=
  {| config := config; conceptUnits := ∅; error := error;
     isLoading := false; isValidating := false; chartView := false;
     printState := idle |}.

Definition fullConfig : ConfigObject :=
  {| Config.vitals := Some {| Config.showPrintButton := Some true |};
     Config.concepts :=
       Some {| Config.temperatureUuid := Some "5088AAAA";
               Config.systolicBloodPressureUuid := Some "5085AAAA";
               Config.pulseUuid := Some "5087AAAA";
               Config.respiratoryRateUuid := Some "5242AAAA";
               Config.oxygenSaturationUuid := Some "5092AAAA" |};
     Config.excludePatientIdentifierCodeTypes :=
       Some {| Config.uuids := Some [] |} |}.

End Sample.

(** * Properties *)

(** ** The JavaScript operators *)

Lemma js_sub_numbers (a b : Z) : js_sub (Some a) (Some b) = a - b.
Proof. reflexivity. Qed.

Lemma js_gt0_Some (x : option Z) : js_gt0 x = true ↔ ∃ n, x = Some n ∧ 0 < n.
Proof.
  destruct x as [n|]; simpl.
  - rewrite Z.ltb_lt. split.
    + intros Hn. exists n. split; [reflexivity | exact Hn].
    + intros (m & [= <-] & Hm). exact Hm.
  - split; [discriminate|]. intros (m & Hm & _). discriminate.
Qed.

(** What the guard [a && b ? a - b : 0] computes: the difference of two
    readings that are both recorded and both different from zero, and [0]
    in every other case. *)
Lemma guarded_difference (a b : option Z) :
  (if truthy_number a && truthy_number b then js_sub a b else 0) =
  match a, b with
  | Some x, Some y => if (x =? 0) || (y =? 0) then 0 else x - y
  | _, _ => 0
  end.
Proof.
  destruct a as [x|], b as [y|]; simpl; try reflexivity.
  - destruct (x =? 0), (y =? 0); reflexivity.
  - destruct (x =? 0); reflexivity.
Qed.

(** ** Column comparators *)

(** The four single-value comparators return the difference of two non-zero
    readings. *)
Lemma sortFunc_nonzero_difference (valueA valueB : VitalsTableRow) (x y : Z) :
  x ≠ 0 → y ≠ 0 →
  (temperature valueA = Some x → temperature valueB = Some y →
     sortFunc_temperature valueA valueB = x - y) ∧
  (pulse valueA = Some x → pulse valueB = Some y →
     sortFunc_pulse valueA valueB = x - y) ∧
  (respiratoryRate valueA = Some x → respiratoryRate valueB = Some y →
     sortFunc_respiratoryRate valueA valueB = x - y) ∧
  (spo2 valueA = Some x → spo2 valueB = Some y →
     sortFunc_spo2 valueA valueB = x - y).
Proof.
  intros Hx Hy.
  apply Z.eqb_neq in Hx; apply Z.eqb_neq in Hy.
  unfold sortFunc_temperature, sortFunc_pulse, sortFunc_respiratoryRate,
    sortFunc_spo2.
  rewrite !guarded_difference.
  repeat split; intros -> ->; rewrite Hx, Hy; reflexivity.
Qed.

(** They return [0] as soon as one of the two readings is missing. *)
Lemma sortFunc_absent_zero (valueA valueB : VitalsTableRow) :
  (temperature valueA = None ∨ temperature valueB = None →
     sortFunc_temperature valueA valueB = 0) ∧
  (pulse valueA = None ∨ pulse valueB = None →
     sortFunc_pulse valueA valueB = 0) ∧
  (respiratoryRate valueA = None ∨ respiratoryRate valueB = None →
     sortFunc_respiratoryRate valueA valueB = 0) ∧
  (spo2 valueA = None ∨ spo2 valueB = None →
     sortFunc_spo2 valueA valueB = 0).
Proof.
  unfold sortFunc_temperature, sortFunc_pulse, sortFunc_respiratoryRate,
    sortFunc_spo2.
  rewrite !guarded_difference.
  repeat split; intros [-> | ->]; try reflexivity;
    match goal with |- context [match ?o with _ => _ end] =>
      destruct o; reflexivity
    end.
Qed.

(** C1, evaluated on the code: a row whose temperature, pulse, respiratory
    rate and SpO2 are all recorded as zero is compared with a row holding
    37, 72, 16 and 98.  Every field is present on both sides, yet each of
    the four comparators returns [0] instead of the difference of the two
    values: the test [valueA.x && valueB.x] takes a recorded zero for a
    missing reading. *)
Theorem sortFunc_recorded_zero_taken_for_absent `{Collaborators} :
  let valueA :=
    tableRow (Sample.reading "2024-01-01T10:00"
                (Some 0) None None (Some 0) (Some 0) (Some 0)) in
  let valueB :=
    tableRow (Sample.reading "2024-01-02T10:00"
                (Some 37) None None (Some 72) (Some 16) (Some 98)) in
  (temperature valueA = Some 0 ∧ temperature valueB = Some 37 ∧
   sortFunc_temperature valueA valueB = 0 ∧
   sortFunc_temperature valueA valueB ≠ 0 - 37) ∧
  (pulse valueA = Some 0 ∧ pulse valueB = Some 72 ∧
   sortFunc_pulse valueA valueB = 0 ∧
   sortFunc_pulse valueA valueB ≠ 0 - 72) ∧
  (respiratoryRate valueA = Some 0 ∧ respiratoryRate valueB = Some 16 ∧
   sortFunc_respiratoryRate valueA valueB = 0 ∧
   sortFunc_respiratoryRate valueA valueB ≠ 0 - 16) ∧
  (spo2 valueA = Some 0 ∧ spo2 valueB = Some 98 ∧
   sortFunc_spo2 valueA valueB = 0 ∧
   sortFunc_spo2 valueA valueB ≠ 0 - 98).
Proof. repeat split; discriminate. Qed.

(** The blood-pressure comparator on four non-zero readings: the systolic
    difference when the systolic values differ, the diastolic difference
    otherwise. *)
Lemma sortFunc_bloodPressure_nonzero (valueA valueB : VitalsTableRow)
    (sA sB dA dB : Z) :
  systolic valueA = Some sA → systolic valueB = Some sB →
  diastolic valueA = Some dA → diastolic valueB = Some dB →
  sA ≠ 0 → sB ≠ 0 → dA ≠ 0 → dB ≠ 0 →
  sortFunc_bloodPressure valueA valueB =
    if bool_decide (sA = sB) then dA - dB else sA - sB.
Proof.
  intros EsA EsB EdA EdB HsA HsB HdA HdB.
  unfold sortFunc_bloodPressure. rewrite EsA, EsB, EdA, EdB. simpl.
  apply Z.eqb_neq in HsA, HsB, HdA, HdB. rewrite HsA, HsB, HdA, HdB. simpl.
  repeat case_bool_decide; simplify_eq; reflexivity.
Qed.

(** It returns [0] as soon as one of the four readings is missing. *)
Lemma sortFunc_bloodPressure_absent (valueA valueB : VitalsTableRow) :
  systolic valueA = None ∨ systolic valueB = None ∨
  diastolic valueA = None ∨ diastolic valueB = None →
  sortFunc_bloodPressure valueA valueB = 0.
Proof.
  unfold sortFunc_bloodPressure.
  intros [-> | [-> | [-> | ->]]]; simpl;
    rewrite ?andb_false_r; reflexivity.
Qed.

(** The tie-break of two rows with equal systolic values: 120/80 sorts
    after 120/70. *)
Example sortFunc_bloodPressure_tie_break `{Collaborators} :
  sortFunc_bloodPressure
    (tableRow (Sample.reading "2024-01-01T10:00"
                 None (Some 120) (Some 80) None None None))
    (tableRow (Sample.reading "2024-01-02T10:00"
                 None (Some 120) (Some 70) None None None)) = 10.
Proof. reflexivity. Qed.

(** C2, evaluated on the code: all four blood-pressure values are present.
    With systolic values 0 and 120 the comparator returns [0] instead of the
    systolic difference; with equal systolic values and diastolic values 0
    and 80 it returns [0] instead of the diastolic difference.  The test
    [valueA.systolic && ... && valueB.diastolic] takes a recorded zero for a
    missing reading. *)
Theorem sortFunc_bloodPressure_recorded_zero_taken_for_absent
    `{Collaborators} :
  let zeroSystolic :=
    tableRow (Sample.reading "2024-01-01T10:00"
                None (Some 0) (Some 80) None None None) in
  let zeroDiastolic :=
    tableRow (Sample.reading "2024-01-02T10:00"
                None (Some 120) (Some 0) None None None) in
  let valueB :=
    tableRow (Sample.reading "2024-01-03T10:00"
                None (Some 120) (Some 80) None None None) in
  (systolic zeroSystolic ≠ systolic valueB ∧
   sortFunc_bloodPressure zeroSystolic valueB = 0 ∧
   sortFunc_bloodPressure zeroSystolic valueB ≠ 0 - 120) ∧
  (systolic zeroDiastolic = systolic valueB ∧
   sortFunc_bloodPressure zeroDiastolic valueB = 0 ∧
   sortFunc_bloodPressure zeroDiastolic valueB ≠ 0 - 80).
Proof. repeat split; discriminate. Qed.

(** ** Record normalizer *)

(** C3: in the row of any record, the temperature, pulse, respiratory-rate
    and SpO2 cells hold the raw value of a recorded field and the
    placeholder ["--"] otherwise, and the blood-pressure cell is the string
    [systolic / diastolic] in which each side, independently of the other,
    is the value in decimal or ["--"]. *)
Theorem tableRow_placeholders `{Collaborators} (vitalSigns : PatientVitals) :
  let raw_or_placeholder (value : option Z) :=
    match value with Some n => CNum n | None => CStr "--" end in
  let text_or_placeholder (value : option Z) :=
    match value with Some n => number_to_string n | None => "--" end in
  let row := tableRow vitalSigns in
  temperatureRender row = raw_or_placeholder (temperature vitalSigns) ∧
  pulseRender row = raw_or_placeholder (pulse vitalSigns) ∧
  respiratoryRateRender row
    = raw_or_placeholder (respiratoryRate vitalSigns) ∧
  spo2Render row = raw_or_placeholder (spo2 vitalSigns) ∧
  bloodPressureRender row
    = text_or_placeholder (systolic vitalSigns) +:+ " / "
        +:+ text_or_placeholder (diastolic vitalSigns).
Proof.
  destruct vitalSigns as [? ? te sy di pu rr sp ? ? ? ? ?]; simpl.
  unfold orPlaceholder, interpolate, orPlaceholder.
  destruct te, sy, di, pu, rr, sp; repeat split; reflexivity.
Qed.

Example tableRow_half_recorded_pressure `{Collaborators} :
  bloodPressureRender
    (tableRow (Sample.reading "2024-01-01T10:00"
                 None (Some 120) None (Some 0) None None)) = "120 / --"
  ∧ pulseRender
      (tableRow (Sample.reading "2024-01-01T10:00"
                   None (Some 120) None (Some 0) None None)) = CNum 0.
Proof. split; reflexivity. Qed.

(** C8: for every sequence of records the normalizer yields a sequence of
    rows of the same length, whose [i]-th row is the row of the [i]-th
    record alone and carries that record. *)
Theorem tableRows_one_row_per_record `{Collaborators}
    (vitals : list PatientVitals) :
  ∃ rows,
    tableRows (Some vitals) = Some rows ∧
    length rows = length vitals ∧
    (∀ i, rows !! i = tableRow <$> vitals !! i) ∧
    vitalSigns <$> rows = vitals.
Proof.
  exists (tableRow <$> vitals). split; [reflexivity|].
  split; [apply length_fmap|].
  split; [intros i; apply list_lookup_fmap|].
  induction vitals as [|v vs IH]; simpl; [reflexivity|].
  f_equal. exact IH.
Qed.

(** ** Sorting an array *)

Section ArraySort.
Context {A : Type} (compareFn : A → A → Z).

Lemma array_insert_Permutation (x : A) (l : list A) :
  array_insert compareFn x l ≡ₚ x :: l.
Proof.
  induction l as [|y l IH]; simpl; [reflexivity|].
  destruct (compareFn x y <=? 0); [reflexivity|].
  rewrite IH. apply Permutation_swap.
Qed.

Lemma array_sort_Permutation (l : list A) : array_sort compareFn l ≡ₚ l.
Proof.
  induction l as [|x l IH]; simpl; [reflexivity|].
  rewrite array_insert_Permutation, IH. reflexivity.
Qed.

(** Stability: elements that [compareFn] does not tell apart keep the order
    they had. *)
Lemma array_insert_stable (P : A → Prop) `{∀ x, Decision (P x)} (x : A)
    (l : list A) :
  (∀ y, P x → P y → compareFn x y ≤ 0) →
  filter P (array_insert compareFn x l) = filter P (x :: l).
Proof.
  intros Hsame. induction l as [|y l IH]; simpl; [reflexivity|].
  destruct (Z.leb_spec (compareFn x y) 0) as [Hxy|Hxy]; [reflexivity|].
  rewrite (filter_cons _ y), IH, !filter_cons.
  destruct (decide (P x)) as [Hx|Hx], (decide (P y)) as [Hy|Hy];
    try reflexivity.
  specialize (Hsame y Hx Hy). lia.
Qed.

Lemma array_sort_stable (P : A → Prop) `{∀ x, Decision (P x)} (l : list A) :
  (∀ x y, P x → P y → compareFn x y ≤ 0) →
  filter P (array_sort compareFn l) = filter P l.
Proof.
  intros Hsame. induction l as [|x l IH]; simpl; [reflexivity|].
  rewrite array_insert_stable by auto.
  rewrite !filter_cons, IH. reflexivity.
Qed.

Hypothesis consistent : ∀ x y, 0 < compareFn x y → compareFn y x ≤ 0.
Hypothesis transitive :
  ∀ x y z, compareFn x y ≤ 0 → compareFn y z ≤ 0 → compareFn x z ≤ 0.

Lemma array_insert_sorted (x : A) (l : list A) :
  StronglySorted (orderedBy compareFn) l →
  StronglySorted (orderedBy compareFn) (array_insert compareFn x l).
Proof.
  induction 1 as [|y l Hl IH Hy]; simpl.
  - repeat constructor.
  - destruct (Z.leb_spec (compareFn x y) 0) as [Hxy|Hxy].
    + constructor; [constructor; assumption|].
      constructor; [exact Hxy|].
      eapply Forall_impl; [exact Hy|].
      intros z Hz. exact (transitive x y z Hxy Hz).
    + constructor; [exact IH|].
      rewrite array_insert_Permutation.
      constructor; [exact (consistent x y Hxy) | exact Hy].
Qed.

Lemma array_sort_sorted (l : list A) :
  StronglySorted (orderedBy compareFn) (array_sort compareFn l).
Proof.
  induction l as [|x l IH]; simpl; [constructor|].
  apply array_insert_sorted, IH.
Qed.

End ArraySort.

Lemma StronglySorted_filter {A} (R : relation A) (P : A → Prop)
    `{∀ x, Decision (P x)} (l : list A) :
  StronglySorted R l → StronglySorted R (filter P l).
Proof.
  induction 1 as [|x l Hl IH Hx]; [constructor|].
  rewrite filter_cons. destruct (decide (P x)); [|exact IH].
  constructor; [exact IH|].
  apply Forall_forall. intros y Hy%list_elem_of_filter.
  rewrite Forall_forall in Hx. apply Hx, Hy.
Qed.

(** ** The blood-pressure helper *)

Lemma hasBloodPressure_filter `{Collaborators} (vital : PatientVitals) :
  js_gt0 (systolic vital) && js_gt0 (diastolic vital) = true
  ↔ hasBloodPressure vital.
Proof.
  unfold hasBloodPressure.
  rewrite andb_true_iff, !js_gt0_Some. split.
  - intros [(s & Hs & Hs') (d & Hd & Hd')]. exists s, d. auto.
  - intros (s & d & Hs & Hd & Hs' & Hd'). split; eauto.
Qed.

Lemma getSortedBP_unfold `{Collaborators} (vitals : list PatientVitals) :
  let sorted :=
    array_sort (λ vitalA vitalB,
      getTime (date vitalB) - getTime (date vitalA)) vitals in
  getSortedBP (Some vitals) =
    Normal (filter (λ vital,
              js_gt0 (systolic vital) && js_gt0 (diastolic vital) = true)
              sorted,
            Some sorted).
Proof. reflexivity. Qed.

Lemma getSortedBP_newerFirst `{Collaborators} (vitals : list PatientVitals) :
  StronglySorted newerFirst
    (array_sort (λ vitalA vitalB,
       getTime (date vitalB) - getTime (date vitalA)) vitals).
Proof.
  eapply Sorted.StronglySorted_ind with
    (P := λ l, StronglySorted newerFirst l);
    [constructor | | apply array_sort_sorted; intros; lia].
  intros a l _ IH Ha. constructor; [exact IH|].
  eapply Forall_impl; [exact Ha|].
  unfold orderedBy, newerFirst. intros; lia.
Qed.

(** Records of one and the same time keep their order. *)
Lemma getSortedBP_stable `{Collaborators} (vitals : list PatientVitals)
    (time : Z) :
  filter (λ vital, getTime (date vital) = time)
    (array_sort (λ vitalA vitalB,
       getTime (date vitalB) - getTime (date vitalA)) vitals)
  = filter (λ vital, getTime (date vital) = time) vitals.
Proof. apply array_sort_stable. intros x y -> ->. lia. Qed.

(** C9: [getSortedBP] leaves the shared array holding the same records
    rearranged so that no record is followed by a more recent one, and
    returns, in that order, exactly the records of the array whose systolic
    and diastolic values are both greater than zero.  The records themselves
    are the ones that were in the array. *)
Theorem getSortedBP_sorts_shared_array `{Collaborators}
    (vitals : list PatientVitals) :
  ∃ sorted bp,
    getSortedBP (Some vitals) = Normal (bp, Some sorted) ∧
    sorted ≡ₚ vitals ∧
    StronglySorted newerFirst sorted ∧
    bp `sublist_of` sorted ∧
    StronglySorted newerFirst bp ∧
    bp ≡ₚ filter (λ vital,
            js_gt0 (systolic vital) && js_gt0 (diastolic vital) = true)
            vitals ∧
    (∀ vital, vital ∈ bp ↔ vital ∈ vitals ∧ hasBloodPressure vital).
Proof.
  eexists _, _. split; [apply getSortedBP_unfold|]. cbv zeta.
  pose proof (getSortedBP_newerFirst vitals) as Hsorted.
  pose proof (array_sort_Permutation
    (λ vitalA vitalB, getTime (date vitalB) - getTime (date vitalA)) vitals)
    as Hperm.
  split; [exact Hperm|].
  split; [exact Hsorted|].
  split; [apply sublist_filter|].
  split; [apply StronglySorted_filter, Hsorted|].
  split; [rewrite Hperm; reflexivity|].
  intros vital. rewrite list_elem_of_filter, Hperm, hasBloodPressure_filter.
  tauto.
Qed.

(** The sort is visible to every other reader of the array: after the call
    the store holds the records in their new order. *)
Example getSortedBP_reorders_store :
  let older :=
    Sample.reading "2024-01-01T10:00" None (Some 120) (Some 80) None None None
  in
  let newer := Sample.reading "2024-01-02T10:00" None None None None None None
  in
  getSortedBP (H := Sample.collaborators) (Some [older; newer])
    = Normal ([older], Some [newer; older]).
Proof. reflexivity. Qed.

(** The rows of a render are computed before the array is sorted: they keep
    the order in which the records arrived. *)
Example VitalsOverview_rows_keep_arrival_order :
  let older :=
    Sample.reading "2024-01-01T10:00" None (Some 120) (Some 80) None None None
  in
  let newer := Sample.reading "2024-01-02T10:00" None None None None None None
  in
  ∃ card details headers,
    VitalsOverview (H := Sample.collaborators) (Some Sample.patient)
      (Sample.hooks Sample.fullConfig None) (Some [older; newer])
      = Normal (Card card, Some [newer; older]) ∧
    content card =
      PaginatedVitals false details headers
        (Some [tableRow (H := Sample.collaborators) older;
               tableRow (H := Sample.collaborators) newer]) ∧
    openClinicalButton card = true.
Proof. eexists _, _, _. split; [reflexivity|]. split; reflexivity. Qed.

Lemma getSortedBP_elem_of `{Collaborators} (vitals : list PatientVitals)
    (vital : PatientVitals) :
  vital ∈ filter (λ vital,
            js_gt0 (systolic vital) && js_gt0 (diastolic vital) = true)
            (array_sort (λ vitalA vitalB,
               getTime (date vitalB) - getTime (date vitalA)) vitals)
  ↔ vital ∈ vitals ∧ hasBloodPressure vital.
Proof.
  rewrite list_elem_of_filter, array_sort_Permutation, hasBloodPressure_filter.
  tauto.
Qed.

Lemma nonempty_elem_of {A} (l : list A) : (0 < length l)%nat ↔ ∃ x, x ∈ l.
Proof.
  destruct l as [|x l]; simpl; split.
  - lia.
  - intros [x Hx]. inversion Hx.
  - intros _. exists x. left.
  - lia.
Qed.

(** ** Render branches *)

Lemma render_branches `{Collaborators} (hooks : Hooks)
    (showPrintButton : option bool) (patientDetails : PatientDetails)
    (tableHeaders : list VitalsTableHeader)
    (tableRows : option (list VitalsTableRow)) (vitals : Store) :
  render hooks showPrintButton patientDetails tableHeaders tableRows vitals =
    if isLoading hooks then Normal (DataTableSkeleton, vitals)
    else match error hooks with
    | Some error => Normal (ErrorState error headerTitle, vitals)
    | None =>
        match vitals with
        | Some (first :: rest) =>
            '(bp, store) ← getSortedBP (Some (first :: rest));
            Normal (Card
              {| title := headerTitle;
                 inlineLoading := isValidating hooks;
                 printButton := truthy_boolean showPrintButton;
                 content :=
                   if chartView hooks then VitalsChart
                   else PaginatedVitals (isPrinting (printState hooks)) patientDetails
                          tableHeaders tableRows;
                 openClinicalButton := bool_decide (0 < length bp)%nat |},
              store)
        | _ => Normal (EmptyState displayText headerTitle, vitals)
        end
    end.
Proof.
  unfold render. destruct (isLoading hooks); [reflexivity|].
  destruct (error hooks); [reflexivity|].
  destruct vitals as [[|first rest]|]; reflexivity.
Qed.

Example VitalsOverview_without_records :
  VitalsOverview (H := Sample.collaborators) (Some Sample.patient)
    (Sample.hooks Sample.fullConfig None) (Some [])
  = Normal (EmptyState "vital signs" "Vitals", Some []).
Proof. reflexivity. Qed.

(** C7: once loading has finished without a fetch error, an empty record
    sequence is answered with the empty state (which offers to record
    vitals), not with an error; the error state is shown only when the data
    hook reports an error, and it shows that error. *)
Theorem render_empty_dataset_is_not_an_error `{Collaborators} (hooks : Hooks)
    (showPrintButton : option bool) (patientDetails : PatientDetails)
    (tableHeaders : list VitalsTableHeader)
    (tableRows : option (list VitalsTableRow)) :
  (isLoading hooks = false → error hooks = None →
     render hooks showPrintButton patientDetails tableHeaders tableRows
       (Some []) = Normal (EmptyState displayText headerTitle, Some [])) ∧
  (∀ vitals shown title store,
     render hooks showPrintButton patientDetails tableHeaders tableRows
       vitals = Normal (ErrorState shown title, store) →
     error hooks = Some shown).
Proof.
  split.
  - intros Hloading Herror. rewrite render_branches, Hloading, Herror.
    reflexivity.
  - intros vitals shown title store. rewrite render_branches.
    destruct (isLoading hooks); [discriminate|].
    destruct (error hooks) as [e|]; [congruence|].
    destruct vitals as [[|first rest]|]; discriminate.
Qed.

Lemma render_empty_dataset_is_not_an_error_witness :
  render (H := Sample.collaborators) (Sample.hooks Sample.fullConfig None)
    (Some true)
    {| name := ""; patientAge := None; patientGender := None;
       location := None; identifiers := [] |} [] (Some [])
    (Some [])
  = Normal (EmptyState "vital signs" "Vitals", Some []).
Proof.
  apply (render_empty_dataset_is_not_an_error (H := Sample.collaborators)
           (Sample.hooks Sample.fullConfig None));
    reflexivity.
Defined.

(** ** The Open Clinical button *)

(** C10 as stated fails when the data hook reports an error while records
    are at hand: the error state is shown, without the button, although a
    record has both blood-pressure values above zero. *)
Lemma openClinical_button_hidden_by_fetch_error :
  let vitals :=
    [Sample.reading "2024-01-01T10:00"
       None (Some 120) (Some 80) None None None] in
  let hooks :=
    Sample.hooks Sample.fullConfig (Some {| message := "Network Error" |}) in
  ∃ view store,
    VitalsOverview (H := Sample.collaborators) (Some Sample.patient) hooks
      (Some vitals) = Normal (view, store) ∧
    ¬ (openClinicalButtonRendered view = true ↔
       ∃ vital, vital ∈ vitals ∧ hasBloodPressure vital).
Proof.
  eexists _, _. split; [reflexivity|]. simpl.
  intros [_ Hrendered]. enough (false = true) by discriminate.
  apply Hrendered. eexists. split; [left|].
  exists 120, 80. repeat split; reflexivity.
Qed.

(** C10, amended: the button is rendered iff loading has finished, the data
    hook reports no error, and at least one record has systolic > 0 and
    diastolic > 0; a click on it then navigates to the URL built from the
    patient's birth date and gender, the systolic and diastolic values of a
    record with such values than which no other such record is more recent,
    and the patient's id. *)
Theorem openClinical_button_and_url `{Collaborators} (hooks : Hooks)
    (showPrintButton : option bool) (patientDetails : PatientDetails)
    (tableHeaders : list VitalsTableHeader)
    (tableRows : option (list VitalsTableRow)) (vitals : Store)
    (patient : fhir.Patient) :
  (∃ view store,
     render hooks showPrintButton patientDetails tableHeaders tableRows
       vitals = Normal (view, store) ∧
     (openClinicalButtonRendered view = true ↔
        isLoading hooks = false ∧ error hooks = None ∧
        ∃ records vital,
          vitals = Some records ∧ vital ∈ records ∧ hasBloodPressure vital)) ∧
  (∀ records,
     vitals = Some records →
     (∃ vital, vital ∈ records ∧ hasBloodPressure vital) →
     ∃ latest sbp dbp store,
       handleOpenClinical (Some patient) vitals =
         Normal ("http://localhost:22221/digipath/matt/ht_demo?dob="
                   +:+ string_or_undefined (fhir.birthDate patient)
                   +:+ "&gender=" +:+ string_or_undefined (fhir.gender patient)
                   +:+ "&sbp=" +:+ number_to_string sbp
                   +:+ "&dbp=" +:+ number_to_string dbp
                   +:+ "&id=" +:+ string_or_undefined (fhir.id patient),
                 store) ∧
       latest ∈ records ∧
       systolic latest = Some sbp ∧ diastolic latest = Some dbp ∧
       0 < sbp ∧ 0 < dbp ∧
       ∀ vital, vital ∈ records → hasBloodPressure vital →
                newerFirst latest vital).
Proof.
  split.
  - rewrite render_branches.
    destruct (isLoading hooks).
    { eexists _, _. split; [reflexivity|]. simpl. split; [discriminate|].
      intros [? _]; discriminate. }
    destruct (error hooks) as [e|].
    { eexists _, _. split; [reflexivity|]. simpl. split; [discriminate|].
      intros (_ & ? & _); discriminate. }
    destruct vitals as [[|first rest]|].
    + eexists _, _. split; [reflexivity|]. simpl. split; [discriminate|].
      intros (_ & _ & records & vital & [= <-] & Hin & _). inversion Hin.
    + remember (first :: rest) as records eqn:Erecords.
      rewrite getSortedBP_unfold. cbv zeta.
      eexists _, _. split; [reflexivity|].
      cbn [openClinicalButtonRendered openClinicalButton].
      rewrite bool_decide_eq_true, nonempty_elem_of.
      setoid_rewrite getSortedBP_elem_of. split.
      * intros (vital & Hin & Hbp). repeat split; eauto.
      * intros (_ & _ & records' & vital & [= <-] & Hin & Hbp). eauto.
    + eexists _, _. split; [reflexivity|]. simpl. split; [discriminate|].
      intros (_ & _ & records & vital & ? & _); discriminate.
  - intros records -> (vital & Hin & Hbp).
    unfold handleOpenClinical, mbind, Eff_bind.
    rewrite getSortedBP_unfold. cbv zeta.
    pose proof (proj2 (getSortedBP_elem_of records vital) (conj Hin Hbp))
      as Hvital.
    pose proof (StronglySorted_filter _
      (λ vital, js_gt0 (systolic vital) && js_gt0 (diastolic vital) = true)
      _ (getSortedBP_newerFirst records)) as Hsorted.
    pose proof (getSortedBP_elem_of records) as Helem.
    destruct (filter _ _) as [|latest rest]; [inversion Hvital|].
    destruct (proj1 (Helem latest)) as (Hlatest & sbp & dbp & Es & Ed & Hs & Hd);
      [left|].
    exists latest, sbp, dbp. eexists. split.
    { unfold lift. simpl. rewrite Es, Ed. reflexivity. }
    repeat (split; [assumption|]).
    intros other Hother Hotherbp.
    pose proof (proj2 (Helem other) (conj Hother Hotherbp)) as Hmem.
    apply StronglySorted_cons in Hsorted as [Hall _].
    apply elem_of_cons in Hmem as [->|Hmem].
    + unfold newerFirst. lia.
    + rewrite Forall_forall in Hall. apply Hall, Hmem.
Qed.

Lemma openClinical_button_and_url_witness :
  let older :=
    Sample.reading "2024-01-01T10:00" None (Some 120) (Some 80) None None None
  in
  let newer :=
    Sample.reading "2024-01-02T10:00" None (Some 130) (Some 85) None None None
  in
  ∃ latest sbp dbp store,
    handleOpenClinical (H := Sample.collaborators) (Some Sample.patient)
      (Some [older; newer]) =
      Normal ("http://localhost:22221/digipath/matt/ht_demo?dob="
                +:+ "1972-04-04" +:+ "&gender=" +:+ "male"
                +:+ "&sbp=" +:+ number_to_string sbp
                +:+ "&dbp=" +:+ number_to_string dbp
                +:+ "&id=" +:+ "p-1",
              store) ∧
    latest ∈ [older; newer] ∧
    systolic latest = Some sbp ∧ diastolic latest = Some dbp ∧
    0 < sbp ∧ 0 < dbp ∧
    ∀ vital, vital ∈ [older; newer] → hasBloodPressure vital →
             newerFirst (H := Sample.collaborators) latest vital.
Proof.
  intros older newer.
  apply (proj2 (openClinical_button_and_url (H := Sample.collaborators)
                  (Sample.hooks Sample.fullConfig None) None
                  {| name := ""; patientAge := None; patientGender := None;
                     location := None; identifiers := [] |} [] None
                  (Some [older; newer]) Sample.patient)).
  - reflexivity.
  - exists older. split; [left|]. exists 120, 80. repeat split; reflexivity.
Defined.

(** ** Configuration look-ups *)

Lemma filterM_keep_all `{Collaborators} (identifier : list fhir.Identifier) :
  filterM (keepIdentifier None) identifier = Normal identifier.
Proof.
  induction identifier as [|i l IH]; simpl; [reflexivity|].
  rewrite IH. reflexivity.
Qed.

(** C5 as stated fails: a configuration without the [vitals] section makes
    the derivation of [showPrintButton] throw, and an
    [excludePatientIdentifierCodeTypes] object without [uuids] makes the
    derivation of [patientDetails] throw for a patient with an
    identifier. *)
Lemma missing_config_section_throws :
  showPrintButton
    {| Config.vitals := None;
       Config.concepts := Config.concepts Sample.fullConfig;
       Config.excludePatientIdentifierCodeTypes := None |} false
    = Throw TypeError ∧
  patientDetails (H := Sample.collaborators)
    {| Config.vitals := Config.vitals Sample.fullConfig;
       Config.concepts := Config.concepts Sample.fullConfig;
       Config.excludePatientIdentifierCodeTypes :=
         Some {| Config.uuids := None |} |}
    (Some Sample.patient)
    = Throw TypeError.
Proof. split; reflexivity. Qed.

(** C5, amended: when the [vitals] section is there and only its
    [showPrintButton] flag is missing, deriving [showPrintButton] throws
    nothing and yields a falsy value, so the print button is not rendered;
    when [excludePatientIdentifierCodeTypes] is missing altogether, deriving
    [patientDetails] throws nothing on account of the configuration and no
    identifier is excluded. *)
Theorem missing_flag_or_exclusion_list_disables `{Collaborators}
    (config : ConfigObject) (chartView : bool)
    (patient : option fhir.Patient) :
  (∀ section,
     Config.vitals config = Some section →
     Config.showPrintButton section = None →
     ∃ flag, showPrintButton config chartView = Normal flag
             ∧ truthy_boolean flag = false) ∧
  (Config.excludePatientIdentifierCodeTypes config = None →
   ∀ location,
     patientLocation patient = Normal location →
     ∃ details,
       patientDetails config patient = Normal details ∧
       identifiers details
         = fhir.value <$> nullish (patient ≫= fhir.identifier) []).
Proof.
  split.
  - intros section Hsection Hflag. exists None.
    unfold showPrintButton. rewrite Hsection. simpl. rewrite Hflag.
    split; reflexivity.
  - intros Hexcluded location Hlocation.
    unfold patientDetails. rewrite Hexcluded, Hlocation.
    destruct (patient ≫= fhir.identifier) as [identifier|]; simpl.
    + rewrite filterM_keep_all. simpl. eexists. split; reflexivity.
    + eexists. split; reflexivity.
Qed.

Lemma missing_flag_or_exclusion_list_disables_witness :
  let config :=
    {| Config.vitals := Some {| Config.showPrintButton := None |};
       Config.concepts := None;
       Config.excludePatientIdentifierCodeTypes := None |} in
  (∃ flag, showPrintButton config false = Normal flag
           ∧ truthy_boolean flag = false) ∧
  (∃ details,
     patientDetails (H := Sample.collaborators) config (Some Sample.patient)
       = Normal details ∧
     identifiers details = [Some "100GEJ"]).
Proof.
  intros config.
  pose proof (missing_flag_or_exclusion_list_disables
                (H := Sample.collaborators) config false
                (Some Sample.patient)) as [Hflag Hdetails].
  split.
  - apply (Hflag {| Config.showPrintButton := None |}); reflexivity.
  - apply (Hdetails eq_refl (Some "Kampala")). reflexivity.
Defined.

(** ** Column headers *)

(** C6: a concept identifier that the unit mapping does not contain (the
    mapping may be empty, as it is while it loads) resolves to the empty
    string, nothing is thrown, and a header built with that unit is the
    translated label alone; so it is for each of the five unit columns of
    [tableHeaders]. *)
Theorem unmapped_concept_gives_bare_header `{Collaborators}
    (conceptUnits : gmap string string) (uuid label : string) :
  conceptUnits !! uuid = None →
  unitOf conceptUnits (Some uuid) = "" ∧
  withUnit label (unitOf conceptUnits (Some uuid)) = label ∧
  ∀ config concepts,
    Config.concepts config = Some concepts →
    ∃ headers,
      tableHeaders config conceptUnits = Normal headers ∧
      (Config.temperatureUuid concepts = Some uuid →
         header <$> headers !! 1%nat
           = Some (t "temperatureAbbreviated" "Temp")) ∧
      (Config.systolicBloodPressureUuid concepts = Some uuid →
         header <$> headers !! 2%nat
           = Some (t "bloodPressureAbbreviated" "BP")) ∧
      (Config.pulseUuid concepts = Some uuid →
         header <$> headers !! 3%nat = Some (t "pulse" "Pulse")) ∧
      (Config.respiratoryRateUuid concepts = Some uuid →
         header <$> headers !! 4%nat
           = Some (t "respiratoryRateAbbreviated" "R. Rate")) ∧
      (Config.oxygenSaturationUuid concepts = Some uuid →
         header <$> headers !! 5%nat = Some (t "spo2" "SpO2")).
Proof.
  intros Hunmapped.
  assert (unitOf conceptUnits (Some uuid) = "") as Hunit.
  { unfold unitOf. simpl. rewrite Hunmapped. reflexivity. }
  split; [exact Hunit|].
  split; [rewrite Hunit; reflexivity|].
  intros config concepts Hconcepts.
  unfold tableHeaders. rewrite Hconcepts. simpl.
  eexists. split; [reflexivity|].
  repeat split; intros ->; simpl; rewrite Hunit; reflexivity.
Qed.

Lemma unmapped_concept_gives_bare_header_witness :
  unitOf {[ "5085AAAA" := "mmHg" ]} (Some "5088AAAA") = "" ∧
  withUnit "Temp" (unitOf {[ "5085AAAA" := "mmHg" ]} (Some "5088AAAA"))
    = "Temp" ∧
  unitOf ∅ (Some "5088AAAA") = "".
Proof.
  pose proof (unmapped_concept_gives_bare_header
                (H := Sample.collaborators)
                {[ "5085AAAA" := "mmHg" ]} "5088AAAA" "Temp")
    as Hpartial.
  pose proof (unmapped_concept_gives_bare_header
                (H := Sample.collaborators) ∅ "5088AAAA" "Temp")
    as Hloading.
  split; [apply Hpartial; vm_compute; reflexivity|].
  split; [apply Hpartial; vm_compute; reflexivity|].
  apply Hloading. vm_compute; reflexivity.
Defined.

Example tableHeaders_with_units :
  (headers ←
     tableHeaders (H := Sample.collaborators) Sample.fullConfig
       {[ "5088AAAA" := "DEG C"; "5085AAAA" := "mmHg" ]};
   Normal (header <$> (headers : list VitalsTableHeader)))
  = Normal ["Date and time"; "Temp (DEG C)"; "BP (mmHg)"; "Pulse";
            "R. Rate"; "SpO2"].
Proof. vm_compute. reflexivity. Qed.

(** ** Print cycle *)

Section PrintCycle.
Context `{Collaborators}.

Lemma size_resolve (resolve : nat) (X : gset nat) :
  (size ({[ resolve ]} ∪ X) ≤ S (size X))%nat.
Proof.
  rewrite size_union_alt, size_singleton.
  apply le_n_S, subseteq_size, subseteq_difference_l. reflexivity.
Qed.

Lemma printStep_balanced (s : PrintState) (e : PrintEvent) (done : nat) :
  balanced s done →
  balanced (printStep s e) (done + (if isAfterPrint e then 1 else 0)).
Proof.
  unfold balanced, captures.
  destruct s as [printing armed pending created fired].
  destruct e as [patient| |]; simpl.
  - unfold onBeforeGetContent, setIsPrinting; simpl.
    destruct (bool_decide (is_Some patient) && _); simpl;
      destruct printing, pending; simpl; lia.
  - destruct pending; simpl; [|lia].
    destruct armed as [resolve|], printing; simpl; try lia.
    pose proof (size_resolve resolve fired). lia.
  - unfold onAfterPrint, setIsPrinting; simpl.
    destruct printing, pending; simpl; lia.
Qed.

Lemma printRun_balanced (trace : list PrintEvent) (s : PrintState)
    (done : nat) :
  balanced s done → balanced (printRun s trace) (done + completions trace).
Proof.
  revert s done. induction trace as [|e trace IH]; intros s done Hs.
  - unfold completions. simpl. rewrite Nat.add_0_r. exact Hs.
  - simpl. apply printStep_balanced with (e := e) in Hs.
    apply IH in Hs.
    assert (completions (e :: trace) =
              ((if isAfterPrint e then 1 else 0) + completions trace)%nat)
      as ->.
    { unfold completions. rewrite filter_cons. destruct e; reflexivity. }
    rewrite Nat.add_assoc. exact Hs.
Qed.

Lemma printRun_captures (trace : list PrintEvent) :
  (captures (printRun idle trace) ≤ S (completions trace))%nat.
Proof.
  assert (balanced idle 0) as Hidle.
  { unfold balanced, captures, idle. cbn [resolved effectPending isPrinting].
    rewrite size_empty. simpl. lia. }
  apply (printRun_balanced trace) in Hidle. unfold balanced in Hidle.
  destruct (isPrinting _), (effectPending _); simpl in Hidle; lia.
Qed.

Variable patient : fhir.Patient.
Hypothesis titled : truthy_string (Some headerTitle) = true.

Lemma onBeforeGetContent_arms (s : PrintState) :
  onBeforeGetContent (Some patient) s =
    {| isPrinting := true;
       onBeforeGetContentResolve := Some (promises s);
       effectPending := effectPending s || negb (isPrinting s);
       promises := S (promises s);
       resolved := resolved s |}.
Proof.
  unfold onBeforeGetContent, setIsPrinting. rewrite titled.
  destruct s as [[] armed pending created fired]; simpl;
    rewrite ?orb_false_r, ?orb_true_r; reflexivity.
Qed.

(** Further requests while [isPrinting] holds only move the ref on to the
    newest promise. *)
Lemma further_requests (k : nat) (s : PrintState) :
  isPrinting s = true →
  printRun s (replicate k (PrintRequest (Some patient))) =
    {| isPrinting := true;
       onBeforeGetContentResolve :=
         match k with
         | O => onBeforeGetContentResolve s
         | S k' => Some (promises s + k')%nat
         end;
       effectPending := effectPending s;
       promises := (promises s + k)%nat;
       resolved := resolved s |}.
Proof.
  revert s. induction k as [|k IH]; intros s Hs.
  - destruct s; simpl in *. subst. rewrite Nat.add_0_r. reflexivity.
  - simpl. rewrite onBeforeGetContent_arms, IH by reflexivity.
    rewrite Hs. simpl. rewrite orb_false_r.
    f_equal; [|lia]. destruct k; f_equal; lia.
Qed.

Lemma requests_then_effect (n k : nat) :
  printRun idle
    (replicate (S n) (PrintRequest (Some patient)) ++ [RunEffect]
       ++ replicate k (PrintRequest (Some patient)) ++ [AfterPrint]) =
    {| isPrinting := false;
       onBeforeGetContentResolve := None;
       effectPending := true;
       promises := (S n + k)%nat;
       resolved := {[ n ]} |}.
Proof.
  unfold printRun. rewrite !foldl_app. simpl.
  rewrite onBeforeGetContent_arms. simpl.
  fold (printRun
          {| isPrinting := true; onBeforeGetContentResolve := Some 0%nat;
             effectPending := true; promises := 1; resolved := ∅ |}
          (replicate n (PrintRequest (Some patient)))).
  rewrite further_requests by reflexivity. simpl.
  match goal with |- context [printEffect ?s] =>
    fold (printRun (printEffect s)
            (replicate k (PrintRequest (Some patient))))
  end.
  rewrite further_requests by reflexivity.
  unfold onAfterPrint, setIsPrinting. simpl.
  f_equal. destruct n; simpl; apply (right_id_L ∅ (∪)).
Qed.

End PrintCycle.

(** C4 as stated fails: a second print request is not a no-op.  While the
    first cycle awaits its content, and again while it captures, the request
    stores the resolver of its own promise in the ref, in place of the one
    armed before.  When the second request comes before the effect has run,
    the effect resolves the second promise, and the promise of the first
    request is never resolved. *)
Lemma second_print_request_rearms_resolver :
  let request := PrintRequest (Some Sample.patient) in
  let step := printStep (H := Sample.collaborators) in
  let run := printRun (H := Sample.collaborators) in
  let awaiting := run idle [request] in
  let capturing := run idle [request; RunEffect] in
  (isPrinting awaiting = true ∧ effectPending awaiting = true ∧
   resolved awaiting = ∅ ∧
   onBeforeGetContentResolve awaiting = Some 0%nat ∧
   onBeforeGetContentResolve (step awaiting request) = Some 1%nat ∧
   step awaiting request ≠ awaiting) ∧
  (isPrinting capturing = true ∧ resolved capturing = {[ 0%nat ]} ∧
   onBeforeGetContentResolve capturing = Some 0%nat ∧
   onBeforeGetContentResolve (step capturing request) = Some 1%nat ∧
   step capturing request ≠ capturing) ∧
  resolved (run idle [request; request; RunEffect; AfterPrint])
    = {[ 1%nat ]}.
Proof.
  repeat split; try reflexivity; discriminate.
Qed.

(** C4, amended: every print request made with a patient at hand arms the
    resolver of its own promise, whatever was armed before.  For every
    sequence of print requests, effect runs and print completions, the
    promises resolved are at most one more than the completions; and when a
    cycle consists of one or more requests, the effect run, any number of
    further requests and the completion, exactly one promise is resolved
    (the one armed last before the effect ran) and the armed resolver is
    cleared when the cycle completes. *)
Theorem print_requests_share_one_capture `{Collaborators}
    (patient : fhir.Patient) (s : PrintState) (trace : list PrintEvent)
    (n k : nat) :
  truthy_string (Some headerTitle) = true →
  onBeforeGetContentResolve (printStep s (PrintRequest (Some patient)))
    = Some (promises s) ∧
  (captures (printRun idle trace) ≤ S (completions trace))%nat ∧
  (let cycle :=
     (replicate (S n) (PrintRequest (Some patient)) ++ [RunEffect]
        ++ replicate k (PrintRequest (Some patient)) ++ [AfterPrint])%list in
   resolved (printRun idle cycle) = {[ n ]} ∧
   captures (printRun idle cycle) = 1%nat ∧
   onBeforeGetContentResolve (printRun idle cycle) = None ∧
   isPrinting (printRun idle cycle) = false) ∧
  onBeforeGetContentResolve (printStep s AfterPrint) = None ∧
  isPrinting (printStep s AfterPrint) = false.
Proof.
  intros Htitled.
  split; [simpl; rewrite onBeforeGetContent_arms by exact Htitled;
          reflexivity|].
  split; [apply printRun_captures|].
  split.
  { cbv zeta. rewrite requests_then_effect by exact Htitled.
    unfold captures.
    cbn [resolved onBeforeGetContentResolve isPrinting].
    rewrite size_singleton. repeat split. }
  destruct s as [[] armed pending created fired]; split; reflexivity.
Qed.

Lemma print_requests_share_one_capture_witness :
  let request := PrintRequest (Some Sample.patient) in
  captures
    (printRun (H := Sample.collaborators) idle
       [request; request; RunEffect; request; AfterPrint]) = 1%nat ∧
  onBeforeGetContentResolve
    (printRun (H := Sample.collaborators) idle
       [request; request; RunEffect; request; AfterPrint]) = None.
Proof.
  intros request.
  pose proof (print_requests_share_one_capture (H := Sample.collaborators)
                Sample.patient idle [] 1 1 eq_refl)
    as (_ & _ & (_ & Hone & Hcleared & _) & _).
  split; [exact Hone | exact Hcleared].
Defined.


(** * Further properties *)

(** ** The comparators as orderings *)

Lemma guarded_difference_antisymmetric (a b : option Z) :
  (if truthy_number a && truthy_number b then js_sub a b else 0) =
  - (if truthy_number b && truthy_number a then js_sub b a else 0).
Proof.
  rewrite (andb_comm (truthy_number b)).
  destruct (truthy_number a && truthy_number b); [|reflexivity].
  unfold js_sub. lia.
Qed.

Lemma sortFunc_bloodPressure_antisymmetric (valueA valueB : VitalsTableRow) :
  sortFunc_bloodPressure valueA valueB
  = - sortFunc_bloodPressure valueB valueA.
Proof.
  unfold sortFunc_bloodPressure.
  replace (truthy_number (systolic valueB) && truthy_number (systolic valueA)
           && truthy_number (diastolic valueB)
           && truthy_number (diastolic valueA))
    with (truthy_number (systolic valueA) && truthy_number (systolic valueB)
          && truthy_number (diastolic valueA)
          && truthy_number (diastolic valueB))
    by (destruct (truthy_number (systolic valueA)),
          (truthy_number (systolic valueB)),
          (truthy_number (diastolic valueA)),
          (truthy_number (diastolic valueB)); reflexivity).
  destruct (_ && _ && _ && _); [|reflexivity].
  unfold js_sub.
  repeat case_bool_decide; simpl; try congruence; lia.
Qed.

(** X1: every column of [tableHeaders] has an antisymmetric comparator:
    swapping the two rows negates the result, so sorting a column in the
    other direction reverses every decision the comparator takes. *)
Theorem tableHeaders_comparators_antisymmetric `{Collaborators}
    (config : ConfigObject) (conceptUnits : gmap string string)
    (headers : list VitalsTableHeader) (column : VitalsTableHeader)
    (valueA valueB : VitalsTableRow) :
  tableHeaders config conceptUnits = Normal headers →
  column ∈ headers →
  sortFunc column valueA valueB = - sortFunc column valueB valueA.
Proof.
  unfold tableHeaders.
  destruct (Config.concepts config) as [concepts|]; [|discriminate].
  simpl. intros [= <-] Hcolumn.
  repeat (apply elem_of_cons in Hcolumn as [->|Hcolumn]); simpl.
  - unfold sortFunc_date. lia.
  - apply guarded_difference_antisymmetric.
  - apply sortFunc_bloodPressure_antisymmetric.
  - apply guarded_difference_antisymmetric.
  - apply guarded_difference_antisymmetric.
  - apply guarded_difference_antisymmetric.
  - inversion Hcolumn.
Qed.

Lemma tableHeaders_comparators_antisymmetric_witness :
  sortFunc_bloodPressure
    (tableRow (H := Sample.collaborators)
       (Sample.reading "2024-01-01T10:00"
          None (Some 120) (Some 80) None None None))
    (tableRow (H := Sample.collaborators)
       (Sample.reading "2024-01-02T10:00"
          None (Some 120) (Some 70) None None None))
  = - sortFunc_bloodPressure
        (tableRow (H := Sample.collaborators)
           (Sample.reading "2024-01-02T10:00"
              None (Some 120) (Some 70) None None None))
        (tableRow (H := Sample.collaborators)
           (Sample.reading "2024-01-01T10:00"
              None (Some 120) (Some 80) None None None)).
Proof.
  eapply (tableHeaders_comparators_antisymmetric (H := Sample.collaborators)
            Sample.fullConfig ∅ _
            {| key := "bloodPressureRender";
               header := withUnit "BP" "";
               isSortable := true;
               sortFunc := sortFunc_bloodPressure |}).
  - reflexivity.
  - do 2 right. left.
Defined.

(** The date comparator orders rows by time: its sign is the sign of
    the difference of the two times, it is zero exactly for rows of the same
    time, and it is transitive. *)
Theorem sortFunc_date_orders_by_time `{Collaborators}
    (valueA valueB valueC : VitalsTableRow) :
  (sortFunc_date valueA valueB < 0
     ↔ getTime (date valueA) < getTime (date valueB)) ∧
  (sortFunc_date valueA valueB = 0
     ↔ getTime (date valueA) = getTime (date valueB)) ∧
  (sortFunc_date valueA valueB ≤ 0 → sortFunc_date valueB valueC ≤ 0 →
     sortFunc_date valueA valueC ≤ 0).
Proof. unfold sortFunc_date. lia. Qed.

(** X2: on four readings that are recorded and not zero, the blood-pressure
    comparator is the lexicographic order on the pairs (systolic,
    diastolic): negative iff the first pair comes first, zero iff the pairs
    are equal. *)
Theorem sortFunc_bloodPressure_lexicographic
    (valueA valueB : VitalsTableRow) (sA sB dA dB : Z) :
  systolic valueA = Some sA → systolic valueB = Some sB →
  diastolic valueA = Some dA → diastolic valueB = Some dB →
  sA ≠ 0 → sB ≠ 0 → dA ≠ 0 → dB ≠ 0 →
  (sortFunc_bloodPressure valueA valueB < 0
     ↔ sA < sB ∨ (sA = sB ∧ dA < dB)) ∧
  (sortFunc_bloodPressure valueA valueB = 0 ↔ sA = sB ∧ dA = dB).
Proof.
  intros EsA EsB EdA EdB HsA HsB HdA HdB.
  rewrite (sortFunc_bloodPressure_nonzero valueA valueB sA sB dA dB)
    by assumption.
  case_bool_decide; lia.
Qed.

Lemma sortFunc_bloodPressure_lexicographic_witness :
  sortFunc_bloodPressure
    (tableRow (H := Sample.collaborators)
       (Sample.reading "2024-01-02T10:00"
          None (Some 120) (Some 70) None None None))
    (tableRow (H := Sample.collaborators)
       (Sample.reading "2024-01-01T10:00"
          None (Some 120) (Some 80) None None None)) < 0.
Proof.
  apply (sortFunc_bloodPressure_lexicographic _ _ 120 120 70 80);
    try reflexivity; try lia.
Defined.

(** X3: a row whose reading is missing or recorded as zero ties with every
    other row, on either side of the comparison, in each of the five value
    columns (for blood pressure: when the systolic or the diastolic reading
    is missing or zero). *)
Theorem sortFunc_falsy_reading_ties (valueA valueB : VitalsTableRow) :
  (truthy_number (temperature valueA) = false →
     sortFunc_temperature valueA valueB = 0
     ∧ sortFunc_temperature valueB valueA = 0) ∧
  (truthy_number (pulse valueA) = false →
     sortFunc_pulse valueA valueB = 0 ∧ sortFunc_pulse valueB valueA = 0) ∧
  (truthy_number (respiratoryRate valueA) = false →
     sortFunc_respiratoryRate valueA valueB = 0
     ∧ sortFunc_respiratoryRate valueB valueA = 0) ∧
  (truthy_number (spo2 valueA) = false →
     sortFunc_spo2 valueA valueB = 0 ∧ sortFunc_spo2 valueB valueA = 0) ∧
  (truthy_number (systolic valueA) = false
   ∨ truthy_number (diastolic valueA) = false →
     sortFunc_bloodPressure valueA valueB = 0
     ∧ sortFunc_bloodPressure valueB valueA = 0).
Proof.
  unfold sortFunc_temperature, sortFunc_pulse, sortFunc_respiratoryRate,
    sortFunc_spo2, sortFunc_bloodPressure.
  split; [intros ->; rewrite andb_false_r; split; reflexivity|].
  split; [intros ->; rewrite andb_false_r; split; reflexivity|].
  split; [intros ->; rewrite andb_false_r; split; reflexivity|].
  split; [intros ->; rewrite andb_false_r; split; reflexivity|].
  intros [-> | ->]; rewrite ?andb_false_r; simpl; rewrite ?andb_false_r;
    split; reflexivity.
Qed.

Lemma sortFunc_falsy_reading_ties_witness :
  sortFunc_pulse
    (tableRow (H := Sample.collaborators)
       (Sample.reading "2024-01-01T10:00" None None None None None None))
    (tableRow (H := Sample.collaborators)
       (Sample.reading "2024-01-02T10:00" None None None (Some 72) None None))
  = 0.
Proof.
  pose proof (sortFunc_falsy_reading_ties
                (tableRow (H := Sample.collaborators)
                   (Sample.reading "2024-01-01T10:00"
                      None None None None None None))
                (tableRow (H := Sample.collaborators)
                   (Sample.reading "2024-01-02T10:00"
                      None None None (Some 72) None None)))
    as (_ & Hpulse & _).
  apply Hpulse. reflexivity.
Defined.

(** ** Column headers and configuration *)

(** X4: [tableHeaders] throws exactly when the configuration has no
    [concepts] section; otherwise, whatever units are known, it yields the
    same six columns in the same order, all of them sortable, the first one
    headed by the translated date label alone. *)
Theorem tableHeaders_six_sortable_columns `{Collaborators}
    (config : ConfigObject) (conceptUnits : gmap string string) :
  (tableHeaders config conceptUnits = Throw TypeError
     ↔ Config.concepts config = None) ∧
  (∀ headers,
     tableHeaders config conceptUnits = Normal headers →
     key <$> headers
       = ["dateRender"; "temperatureRender"; "bloodPressureRender";
          "pulseRender"; "respiratoryRateRender"; "spo2Render"] ∧
     Forall (λ column, isSortable column = true) headers ∧
     header <$> headers !! 0%nat = Some (t "dateAndTime" "Date and time")).
Proof.
  unfold tableHeaders.
  destruct (Config.concepts config) as [concepts|]; simpl.
  - split; [split; discriminate|].
    intros headers [= <-]. simpl.
    split; [reflexivity|]. split; [|reflexivity].
    repeat constructor.
  - split; [split; reflexivity|]. discriminate.
Qed.

Lemma tableHeaders_six_sortable_columns_witness :
  ∃ headers,
    tableHeaders (H := Sample.collaborators) Sample.fullConfig ∅
      = Normal headers ∧
    length headers = 6%nat.
Proof.
  eexists. split; [reflexivity|].
  pose proof (tableHeaders_six_sortable_columns (H := Sample.collaborators)
                Sample.fullConfig ∅) as [_ Hcolumns].
  destruct (Hcolumns _ eq_refl) as [Hkeys _].
  apply (f_equal length) in Hkeys. rewrite length_fmap in Hkeys.
  exact Hkeys.
Defined.

(** X5: deriving [showPrintButton] throws exactly when the configuration has
    no [vitals] section; otherwise the value is truthy, and the print button
    part of the card, exactly when the flag is [true] and the table view
    (not the chart view) is selected. *)
Theorem showPrintButton_only_in_table_view (config : ConfigObject)
    (chartView : bool) :
  (showPrintButton config chartView = Throw TypeError
     ↔ Config.vitals config = None) ∧
  (∀ value,
     showPrintButton config chartView = Normal value →
     (truthy_boolean value = true
        ↔ (Config.vitals config ≫= Config.showPrintButton) = Some true
          ∧ chartView = false)).
Proof.
  unfold showPrintButton.
  destruct (Config.vitals config) as [[flag]|]; simpl.
  - split; [split; discriminate|].
    intros value [= <-].
    destruct flag as [[]|], chartView; simpl; split;
      intros; try discriminate; try (split; congruence);
      try (destruct H; discriminate).
  - split; [split; reflexivity|]. discriminate.
Qed.

Lemma showPrintButton_only_in_table_view_witness :
  ∃ value,
    showPrintButton Sample.fullConfig true = Normal value ∧
    truthy_boolean value ≠ true.
Proof.
  eexists. split; [reflexivity|].
  pose proof (showPrintButton_only_in_table_view Sample.fullConfig true)
    as [_ Hvalue].
  intros Htruthy. apply (Hvalue _ eq_refl) in Htruthy as [_ Hview].
  discriminate Hview.
Defined.

(** ** The patient summary *)

Lemma filterM_keepIdentifier_throws `{Collaborators}
    (excluded : Config.ExcludedIdentifierTypes)
    (identifier : list fhir.Identifier) :
  filterM (keepIdentifier (Some excluded)) identifier = Throw TypeError
  ↔ identifier ≠ [] ∧
    (Config.uuids excluded = None
     ∨ Exists (λ i, identifierCode i = Throw TypeError) identifier).
Proof.
  induction identifier as [|i l IH].
  - simpl. split; [discriminate|]. intros [? _]; congruence.
  - cbn [filterM].
    destruct (filterM (keepIdentifier (Some excluded)) l) as [rest|[]]
      eqn:Erest;
      unfold keepIdentifier;
      destruct (Config.uuids excluded) as [uuids|] eqn:Euuids; simpl;
      try (split; [|intros _; reflexivity]; intros _; split; [discriminate|]; left;
           reflexivity);
      destruct (identifierCode i) as [code|[]] eqn:Ecode; simpl;
      try (split; [|intros _; reflexivity]; intros _; split; [discriminate|]; right;
           apply Exists_cons_hd; assumption).
    + split; [discriminate|]. intros [_ [?|Hex]]; [discriminate|].
      apply Exists_cons in Hex as [?|Hex]; [congruence|].
      enough (Normal rest = Throw TypeError) by discriminate.
      apply IH. split; [|right; exact Hex]. intros ->. inversion Hex.
    + split; [|intros _; reflexivity]. intros _. split; [discriminate|].
      right. apply Exists_cons_tl.
      destruct IH as [IH _]. destruct (IH eq_refl) as [_ [?|?]];
        [discriminate|assumption].
Qed.

(** X6: deriving [patientDetails] throws in exactly two situations: the
    patient has an address array that is empty; or an exclusion object is
    configured, the patient has at least one identifier, and the exclusion
    object lacks [uuids] or one of the identifiers lacks its
    [type.coding[0]].  In particular nothing is thrown without a patient. *)
Theorem patientDetails_throws_iff `{Collaborators} (config : ConfigObject)
    (patient : option fhir.Patient) :
  patientDetails config patient = Throw TypeError
  ↔ (patient ≫= fhir.address) = Some []
    ∨ ∃ excluded identifier,
        Config.excludePatientIdentifierCodeTypes config = Some excluded ∧
        (patient ≫= fhir.identifier) = Some identifier ∧
        identifier ≠ [] ∧
        (Config.uuids excluded = None
         ∨ Exists (λ i, identifierCode i = Throw TypeError) identifier).
Proof.
  unfold patientDetails.
  assert (patientLocation patient = Throw TypeError
          ↔ (patient ≫= fhir.address) = Some []) as Hlocation.
  { unfold patientLocation.
    destruct (patient ≫= fhir.address) as [[|a l]|];
      unfold mret, completion_ret; simpl; split; congruence. }
  destruct (patient ≫= fhir.identifier) as [identifier|] eqn:Eids.
  - destruct (Config.excludePatientIdentifierCodeTypes config)
      as [excluded|] eqn:Eexcluded.
    + pose proof (filterM_keepIdentifier_throws excluded identifier) as Hids.
      destruct (filterM _ identifier) as [kept|[]]; simpl.
      * destruct (patientLocation patient) as [location|[]]; simpl.
        -- split; [discriminate|]. intros [Hloc|Hex].
           ++ apply Hlocation in Hloc. discriminate.
           ++ destruct Hex as (e & ids & [= <-] & [= <-] & Hne & Hbad).
              enough (Normal kept = Throw TypeError) by discriminate.
              apply Hids. auto.
        -- split; [|intros _; reflexivity]. intros _. left.
           apply Hlocation. reflexivity.
      * split; [|intros _; reflexivity]. intros _. right.
        exists excluded, identifier.
        destruct Hids as [Hids _]. destruct (Hids eq_refl). auto.
    + rewrite filterM_keep_all. simpl.
      destruct (patientLocation patient) as [location|[]]; simpl.
      * split; [discriminate|]. intros [Hloc|Hex].
        -- apply Hlocation in Hloc. discriminate.
        -- destruct Hex as (e & ids & ? & _). discriminate.
      * split; [|intros _; reflexivity]. intros _. left.
        apply Hlocation. reflexivity.
  - simpl. destruct (patientLocation patient) as [location|[]]; simpl.
    + split; [discriminate|]. intros [Hloc|Hex].
      * apply Hlocation in Hloc. discriminate.
      * destruct Hex as (e & ids & _ & ? & _). discriminate.
    + split; [|intros _; reflexivity]. intros _. left.
      apply Hlocation. reflexivity.
Qed.

Lemma filterM_keepIdentifier_kept `{Collaborators} (uuids : list string)
    (identifier kept : list fhir.Identifier) :
  filterM (keepIdentifier (Some {| Config.uuids := Some uuids |})) identifier
    = Normal kept →
  kept `sublist_of` identifier ∧
  ∀ i, i ∈ kept ↔
       i ∈ identifier ∧
       ∃ code, identifierCode i = Normal code ∧ includes uuids code = false.
Proof.
  revert kept. induction identifier as [|i l IH]; intros kept.
  - simpl. intros [= <-]. split; [constructor|].
    intros j. split; [intros Hj; inversion Hj|].
    intros [Hj _]; inversion Hj.
  - cbn [filterM]. unfold keepIdentifier at 1. simpl.
    destruct (identifierCode i) as [code|] eqn:Ecode; [|discriminate]. simpl.
    destruct (filterM _ l) as [rest|]; [|discriminate]. simpl.
    destruct (IH rest eq_refl) as [Hsub Hrest].
    destruct (includes uuids code) eqn:Eincluded; simpl; intros [= <-].
    + split; [apply sublist_cons, Hsub|].
      intros j. rewrite Hrest, elem_of_cons. split.
      * intros [Hj Hcode]. split; [right; exact Hj | exact Hcode].
      * intros [[-> | Hj] Hcode]; [|split; assumption].
        destruct Hcode as (code' & Ecode' & Hfalse). congruence.
    + split; [apply sublist_skip, Hsub|].
      intros j. rewrite !elem_of_cons, Hrest. split.
      * intros [-> | [Hj Hcode]].
        -- split; [left; reflexivity|]. exists code. split; assumption.
        -- split; [right; exact Hj | exact Hcode].
      * intros [[-> | Hj] Hcode]; [left; reflexivity|].
        right. split; assumption.
Qed.

(** X7: with an exclusion list configured, the identifiers of the patient
    summary are the values of the patient's identifiers whose type code is
    not in the list, in the order the patient has them; an identifier
    without a type code is kept. *)
Theorem patientDetails_drops_excluded_identifier_types `{Collaborators}
    (config : ConfigObject) (patient : fhir.Patient) (uuids : list string)
    (identifier : list fhir.Identifier) (details : PatientDetails) :
  Config.excludePatientIdentifierCodeTypes config
    = Some {| Config.uuids := Some uuids |} →
  fhir.identifier patient = Some identifier →
  patientDetails config (Some patient) = Normal details →
  ∃ kept,
    identifiers details = fhir.value <$> kept ∧
    kept `sublist_of` identifier ∧
    ∀ i, i ∈ kept ↔
         i ∈ identifier ∧
         ∃ code, identifierCode i = Normal code
                 ∧ includes uuids code = false.
Proof.
  intros Hexcluded Hidentifier. unfold patientDetails.
  simpl. rewrite Hexcluded, Hidentifier.
  destruct (filterM _ identifier) as [kept|] eqn:Ekept; [|discriminate].
  simpl. destruct (patientLocation _) as [location|]; [|discriminate].
  simpl. intros [= <-]. exists kept. split; [reflexivity|].
  apply filterM_keepIdentifier_kept, Ekept.
Qed.

Lemma patientDetails_drops_excluded_identifier_types_witness :
  ∃ details,
    patientDetails (H := Sample.collaborators)
      {| Config.vitals := None; Config.concepts := None;
         Config.excludePatientIdentifierCodeTypes :=
           Some {| Config.uuids := Some ["05a29f94"] |} |}
      (Some Sample.patient) = Normal details ∧
    ∃ kept,
      identifiers details = fhir.value <$> kept ∧
      kept `sublist_of`
        [ {| fhir.value := Some "100GEJ";
             fhir.type :=
               Some {| fhir.coding :=
                         Some [ {| fhir.code := Some "05a29f94" |} ] |} |} ] ∧
      ∀ i, i ∈ kept ↔
           i ∈ [ {| fhir.value := Some "100GEJ";
                    fhir.type :=
                      Some {| fhir.coding :=
                                Some [ {| fhir.code := Some "05a29f94" |} ]
                           |} |} ] ∧
           ∃ code, identifierCode i = Normal code
                   ∧ includes ["05a29f94"] code = false.
Proof.
  eexists. split; [reflexivity|].
  apply (patientDetails_drops_excluded_identifier_types
           (H := Sample.collaborators)
           {| Config.vitals := None; Config.concepts := None;
              Config.excludePatientIdentifierCodeTypes :=
                Some {| Config.uuids := Some ["05a29f94"] |} |}
           Sample.patient ["05a29f94"]);
    reflexivity.
Defined.

(** ** The shared array *)

Lemma array_sort_of_sorted {A} (compareFn : A → A → Z) (l : list A) :
  StronglySorted (orderedBy compareFn) l → array_sort compareFn l = l.
Proof.
  induction 1 as [|x l Hl IH Hx]; simpl; [reflexivity|].
  rewrite IH. destruct l as [|y l']; simpl; [reflexivity|].
  apply Forall_cons in Hx as [Hxy _]. unfold orderedBy in Hxy.
  apply Z.leb_le in Hxy. rewrite Hxy. reflexivity.
Qed.

Lemma getSortedBP_sort_again `{Collaborators} (vitals : list PatientVitals) :
  let compareFn := λ vitalA vitalB : PatientVitals,
    getTime (date vitalB) - getTime (date vitalA) in
  array_sort compareFn (array_sort compareFn vitals)
  = array_sort compareFn vitals.
Proof.
  intros compareFn. apply array_sort_of_sorted, array_sort_sorted;
    unfold compareFn; intros; lia.
Qed.

(** X8: [getSortedBP] throws when there is no data array; on an array, a
    second call returns the same records as the first and leaves the array
    as the first call left it. *)
Theorem getSortedBP_second_call_changes_nothing `{Collaborators}
    (vitals : list PatientVitals) :
  getSortedBP None = Throw TypeError ∧
  ∃ bp sorted,
    getSortedBP (Some vitals) = Normal (bp, Some sorted) ∧
    getSortedBP (Some sorted) = Normal (bp, Some sorted).
Proof.
  split; [reflexivity|].
  eexists _, _. split; [apply getSortedBP_unfold|]. cbv zeta.
  rewrite getSortedBP_unfold. cbv zeta.
  rewrite getSortedBP_sort_again. reflexivity.
Qed.

(** X9: a click on the Open Clinical button throws exactly when there is
    no patient or no record with systolic and diastolic values above zero
    (in particular when there is no data array); otherwise it navigates and
    leaves a data array behind. *)
Theorem handleOpenClinical_throws_iff `{Collaborators}
    (patient : option fhir.Patient) (vitals : Store) :
  (handleOpenClinical patient vitals = Throw TypeError
     ↔ patient = None
       ∨ ¬ ∃ records vital,
             vitals = Some records ∧ vital ∈ records
             ∧ hasBloodPressure vital) ∧
  (∀ url store,
     handleOpenClinical patient vitals = Normal (url, store) →
     ∃ records sorted,
       vitals = Some records ∧ store = Some sorted ∧ sorted ≡ₚ records).
Proof.
  unfold handleOpenClinical, mbind, Eff_bind.
  destruct vitals as [records|].
  - rewrite getSortedBP_unfold. cbv zeta.
    pose proof (getSortedBP_elem_of records) as Helem.
    destruct (filter _ _) as [|latest rest].
    + split.
      * split; [|intros _; unfold lift; destruct patient; reflexivity].
        intros _. right. intros (records' & vital & [= <-] & Hin & Hbp).
        pose proof (proj2 (Helem vital) (conj Hin Hbp)) as Hnil.
        inversion Hnil.
      * intros url store. unfold lift. destruct patient; discriminate.
    + destruct patient as [p|]; unfold lift; simpl.
      * split.
        -- split; [discriminate|]. intros [?|Hnone]; [discriminate|].
           exfalso. apply Hnone. exists records, latest.
           split; [reflexivity|]. apply Helem. left.
        -- intros url store [= _ <-]. eexists _, _.
           split; [reflexivity|]. split; [reflexivity|].
           apply array_sort_Permutation.
      * split; [|discriminate].
        split; [intros _; left; reflexivity | intros _; reflexivity].
  - simpl. split; [|discriminate].
    split; [|intros _; reflexivity].
    intros _. right. intros (records & vital & ? & _). discriminate.
Qed.

(** ** One render *)

Lemma render_returns `{Collaborators} (hooks : Hooks)
    (showPrintButton : option bool) (patientDetails : PatientDetails)
    (tableHeaders : list VitalsTableHeader)
    (tableRows : option (list VitalsTableRow)) (vitals : Store) :
  ∃ view store,
    render hooks showPrintButton patientDetails tableHeaders tableRows vitals
      = Normal (view, store).
Proof.
  rewrite render_branches.
  destruct (isLoading hooks); [eexists _, _; reflexivity|].
  destruct (error hooks); [eexists _, _; reflexivity|].
  destruct vitals as [[|first rest]|]; eexists _, _; reflexivity.
Qed.

(** X10: choosing the view never throws.  The skeleton, the error state
    and the empty state leave the data array as it is; showing the card
    leaves it holding the same records, most recent first. *)
Theorem render_only_reorders_store `{Collaborators} (hooks : Hooks)
    (showPrintButton : option bool) (patientDetails : PatientDetails)
    (tableHeaders : list VitalsTableHeader)
    (tableRows : option (list VitalsTableRow)) (vitals : Store) :
  ∃ view store,
    render hooks showPrintButton patientDetails tableHeaders tableRows vitals
      = Normal (view, store) ∧
    ((∀ card, view ≠ Card card) → store = vitals) ∧
    (∀ card, view = Card card →
       ∃ records sorted,
         vitals = Some records ∧ records ≠ [] ∧ store = Some sorted ∧
         sorted ≡ₚ records ∧ StronglySorted newerFirst sorted).
Proof.
  rewrite render_branches.
  destruct (isLoading hooks);
    [eexists _, _; split; [reflexivity|]; split; [reflexivity|discriminate]|].
  destruct (error hooks);
    [eexists _, _; split; [reflexivity|]; split; [reflexivity|discriminate]|].
  destruct vitals as [[|first rest]|];
    try (eexists _, _; split; [reflexivity|]; split;
         [reflexivity|discriminate]).
  remember (first :: rest) as records eqn:Erecords.
  rewrite getSortedBP_unfold. cbv zeta.
  eexists _, _. split; [reflexivity|]. split.
  - intros Hcard. exfalso. eapply Hcard. reflexivity.
  - intros card _. eexists _, _. split; [reflexivity|].
    split; [subst; discriminate|]. split; [reflexivity|].
    split; [apply array_sort_Permutation | apply getSortedBP_newerFirst].
Qed.

(** X11: when a render shows the Open Clinical button, a click on it with
    a patient at hand does not throw, and it leaves the data array as the
    render left it. *)
Theorem openClinical_click_after_render `{Collaborators} (hooks : Hooks)
    (showPrintButton : option bool) (patientDetails : PatientDetails)
    (tableHeaders : list VitalsTableHeader)
    (tableRows : option (list VitalsTableRow)) (vitals store : Store)
    (view : View) (patient : fhir.Patient) :
  render hooks showPrintButton patientDetails tableHeaders tableRows vitals
    = Normal (view, store) →
  openClinicalButtonRendered view = true →
  ∃ url, handleOpenClinical (Some patient) store = Normal (url, store).
Proof.
  rewrite render_branches.
  destruct (isLoading hooks); [intros [= <- _]; discriminate|].
  destruct (error hooks); [intros [= <- _]; discriminate|].
  destruct vitals as [[|first rest]|];
    try (intros [= <- _]; discriminate).
  remember (first :: rest) as records eqn:Erecords.
  rewrite getSortedBP_unfold. cbv zeta. intros [= <- <-].
  cbn [openClinicalButtonRendered openClinicalButton].
  rewrite bool_decide_eq_true. intros Hbp.
  unfold handleOpenClinical, mbind, Eff_bind.
  rewrite getSortedBP_unfold. cbv zeta. rewrite getSortedBP_sort_again.
  destruct (filter _ _) as [|latest others]; [simpl in Hbp; lia|].
  unfold lift. simpl. eexists. reflexivity.
Qed.

Lemma openClinical_click_after_render_witness :
  ∃ url,
    handleOpenClinical (H := Sample.collaborators) (Some Sample.patient)
      (Some [Sample.reading "2024-01-02T10:00"
               None (Some 130) (Some 85) None None None;
             Sample.reading "2024-01-01T10:00"
               None (Some 120) (Some 80) None None None])
    = Normal (url,
              Some [Sample.reading "2024-01-02T10:00"
                      None (Some 130) (Some 85) None None None;
                    Sample.reading "2024-01-01T10:00"
                      None (Some 120) (Some 80) None None None]).
Proof.
  eapply (openClinical_click_after_render (H := Sample.collaborators)
            (Sample.hooks Sample.fullConfig None) None
            {| name := ""; patientAge := None; patientGender := None;
               location := None; identifiers := [] |} [] None
            (Some [Sample.reading "2024-01-01T10:00"
                     None (Some 120) (Some 80) None None None;
                   Sample.reading "2024-01-02T10:00"
                     None (Some 130) (Some 85) None None None])).
  - reflexivity.
  - reflexivity.
Defined.

Lemma showPrintButton_throws (config : ConfigObject) (chartView : bool) :
  showPrintButton config chartView = Throw TypeError
  ↔ Config.vitals config = None.
Proof.
  unfold showPrintButton.
  destruct (Config.vitals config); simpl;
    [split; discriminate | split; reflexivity].
Qed.

Lemma tableHeaders_throws `{Collaborators} (config : ConfigObject)
    (conceptUnits : gmap string string) :
  tableHeaders config conceptUnits = Throw TypeError
  ↔ Config.concepts config = None.
Proof.
  unfold tableHeaders.
  destruct (Config.concepts config); simpl;
    [split; discriminate | split; reflexivity].
Qed.

(** X12: a render of the component throws exactly when the configuration
    lacks its [vitals] or its [concepts] section or deriving
    [patientDetails] throws; this is so whatever the data hook reports, also
    while it is still loading. *)
Theorem VitalsOverview_throws_iff `{Collaborators}
    (patient : option fhir.Patient) (hooks : Hooks) (vitals : Store) :
  VitalsOverview patient hooks vitals = Throw TypeError
  ↔ Config.vitals (config hooks) = None
    ∨ Config.concepts (config hooks) = None
    ∨ patientDetails (config hooks) patient = Throw TypeError.
Proof.
  rewrite <- (showPrintButton_throws (config hooks) (chartView hooks)).
  rewrite <- (tableHeaders_throws (config hooks) (conceptUnits hooks)).
  unfold VitalsOverview, mbind, Eff_bind, lift.
  destruct (showPrintButton _ _) as [flag|[]];
    [|split; [left; reflexivity | reflexivity]].
  destruct (patientDetails _ _) as [details|[]];
    [|split; [right; right; reflexivity | reflexivity]].
  destruct (tableHeaders _ _) as [headers|[]];
    [|split; [right; left; reflexivity | reflexivity]].
  destruct (render_returns hooks flag details headers
              (tableRows vitals) vitals) as (view & store & ->).
  split; [discriminate|]. intros [?|[?|?]]; discriminate.
Qed.



(** ** Print requests *)

Lemma printStep_wellFormed `{Collaborators} (s : PrintState)
    (e : PrintEvent) :
  wellFormed s → wellFormed (printStep s e).
Proof.
  destruct s as [printing armed pending created fired].
  unfold wellFormed. simpl. intros (Harmed & Hbound & Hfired).
  assert (∀ resolve, resolve ∈ fired → (resolve < S created)%nat) as Hfired'
    by (intros resolve Hin; apply Hfired in Hin; lia).
  destruct e as [patient| |]; simpl.
  - unfold onBeforeGetContent, setIsPrinting. simpl.
    destruct (bool_decide (is_Some patient) && _), printing; simpl;
      (split; [eauto|]); (split; [|exact Hfired']);
      intros resolve Hresolve;
      first [ injection Hresolve as <-; lia
            | apply Hbound in Hresolve; lia ].
  - destruct pending; simpl; [|repeat split; assumption].
    split; [assumption|]. split; [assumption|].
    intros resolve. destruct armed as [armed|], printing;
      try apply Hfired.
    rewrite elem_of_union, elem_of_singleton.
    intros [-> | Hin]; [apply Hbound; reflexivity | apply Hfired, Hin].
  - unfold onAfterPrint, setIsPrinting. simpl.
    destruct printing; simpl;
      (split; [discriminate|]); (split; [discriminate|assumption]).
Qed.

(** X14: in every state the component reaches from idle, by whatever
    sequence of print requests, effect runs and print completions, a
    resolver is armed while [isPrinting] holds, and the armed resolver and
    every resolved promise belong to promises that a print request has
    created. *)
Theorem printRun_wellFormed `{Collaborators} (trace : list PrintEvent) :
  let s := printRun idle trace in
  (isPrinting s = true → is_Some (onBeforeGetContentResolve s)) ∧
  (∀ resolve, onBeforeGetContentResolve s = Some resolve →
     (resolve < promises s)%nat) ∧
  (∀ resolve, resolve ∈ resolved s → (resolve < promises s)%nat).
Proof.
  cbv zeta. change (wellFormed (printRun idle trace)).
  assert (wellFormed idle) as Hidle.
  { unfold wellFormed, idle. simpl. repeat split; try discriminate;
      intros resolve Hin; apply not_elem_of_empty in Hin; destruct Hin. }
  revert Hidle. generalize idle as s.
  induction trace as [|e trace IH]; intros s Hs; [exact Hs|].
  simpl. apply IH, printStep_wellFormed, Hs.
Qed.

Lemma printRun_wellFormed_witness :
  is_Some
    (onBeforeGetContentResolve
       (printRun (H := Sample.collaborators) idle
          [PrintRequest (Some Sample.patient); RunEffect;
           PrintRequest (Some Sample.patient)])).
Proof.
  apply (printRun_wellFormed (H := Sample.collaborators)
           [PrintRequest (Some Sample.patient); RunEffect;
            PrintRequest (Some Sample.patient)]).
  reflexivity.
Defined.

Lemma printStep_never_armed `{Collaborators} (s : PrintState)
    (e : PrintEvent) :
  truthy_string (Some headerTitle) = false
  ∨ (∀ patient, e ≠ PrintRequest (Some patient)) →
  isPrinting s = false → onBeforeGetContentResolve s = None →
  isPrinting (printStep s e) = false ∧
  onBeforeGetContentResolve (printStep s e) = None ∧
  resolved (printStep s e) = resolved s.
Proof.
  destruct s as [printing armed pending created fired]. simpl.
  intros Hguard -> ->. destruct e as [patient| |].
  - unfold printStep, onBeforeGetContent.
    destruct (bool_decide (is_Some patient)
              && truthy_string (Some headerTitle)) eqn:Earmed;
      [|repeat split].
    apply andb_true_iff in Earmed as [Hpatient Htitle].
    destruct Hguard as [Hguard | Hguard]; [simpl in Htitle; congruence|].
    apply bool_decide_eq_true in Hpatient as [p ->].
    destruct (Hguard p). reflexivity.
  - simpl. destruct pending; repeat split.
  - repeat split.
Qed.

(** X15: print requests made without a patient (or while the translated
    title is empty) never start a print: whatever else happens,
    [isPrinting] stays [false], no resolver is armed and no promise is
    resolved, so the promises handed to the print library stay pending. *)
Theorem print_request_without_patient_never_prints `{Collaborators}
    (trace : list PrintEvent) :
  truthy_string (Some headerTitle) = false
  ∨ Forall (λ e, ∀ patient, e ≠ PrintRequest (Some patient)) trace →
  isPrinting (printRun idle trace) = false ∧
  onBeforeGetContentResolve (printRun idle trace) = None ∧
  resolved (printRun idle trace) = ∅.
Proof.
  intros Hguard.
  assert (isPrinting idle = false ∧ onBeforeGetContentResolve idle = None
          ∧ resolved idle = ∅) as Hidle by (repeat split).
  revert Hidle. generalize idle as s.
  induction trace as [|e trace IH]; intros s Hs; [exact Hs|].
  simpl. destruct Hs as (Hprinting & Harmed & Hresolved).
  destruct (printStep_never_armed s e) as (Hp & Ha & Hr);
    [destruct Hguard as [?|Hall];
       [left; assumption
       |right; apply Forall_cons in Hall as [? _]; assumption]
    |assumption|assumption|].
  apply IH.
  - destruct Hguard as [?|Hall]; [left; assumption|].
    right. apply Forall_cons in Hall as [_ ?]. assumption.
  - rewrite Hr. repeat split; assumption.
Qed.

Lemma print_request_without_patient_never_prints_witness :
  resolved
    (printRun (H := Sample.collaborators) idle
       [PrintRequest None; RunEffect; PrintRequest None; AfterPrint;
        RunEffect]) = ∅.
Proof.
  apply (print_request_without_patient_never_prints
           (H := Sample.collaborators)
           [PrintRequest None; RunEffect; PrintRequest None; AfterPrint;
            RunEffect]).
  right. repeat constructor; discriminate.
Defined.

(** ** Which view is shown *)

(** X16: the vitals card is shown exactly when loading has finished, the
    data hook reports no error and there is at least one record; the
    skeleton is shown exactly while loading, whatever else the hook
    reports. *)
Theorem render_shows_card_iff `{Collaborators} (hooks : Hooks)
    (showPrintButton : option bool) (patientDetails : PatientDetails)
    (tableHeaders : list VitalsTableHeader)
    (tableRows : option (list VitalsTableRow)) (vitals : Store) :
  ((∃ card store,
      render hooks showPrintButton patientDetails tableHeaders tableRows
        vitals = Normal (Card card, store))
   ↔ isLoading hooks = false ∧ error hooks = None
     ∧ ∃ first rest, vitals = Some (first :: rest)) ∧
  ((∃ store,
      render hooks showPrintButton patientDetails tableHeaders tableRows
        vitals = Normal (DataTableSkeleton, store))
   ↔ isLoading hooks = true).
Proof.
  rewrite render_branches.
  destruct (isLoading hooks).
  { split; split.
    - intros (card & store & ?). discriminate.
    - intros (? & _). discriminate.
    - reflexivity.
    - intros _. eexists. reflexivity. }
  destruct (error hooks).
  { split; split.
    - intros (card & store & ?). discriminate.
    - intros (_ & ? & _). discriminate.
    - intros (store & ?). discriminate.
    - discriminate. }
  destruct vitals as [[|first rest]|].
  - split; split.
    + intros (card & store & ?). discriminate.
    + intros (_ & _ & ? & ? & ?). discriminate.
    + intros (store & ?). discriminate.
    + discriminate.
  - remember (first :: rest) as records eqn:Erecords.
    rewrite getSortedBP_unfold. cbv zeta. split; split.
    + intros _. subst. repeat split; eauto.
    + intros _. eexists _, _. reflexivity.
    + intros (store & ?). discriminate.
    + discriminate.
  - split; split.
    + intros (card & store & ?). discriminate.
    + intros (_ & _ & ? & ? & ?). discriminate.
    + intros (store & ?). discriminate.
    + discriminate.
Qed.

(** X17: the current-visit widget shows the visit summary exactly when
    loading has finished, [useVisit] reports no error and there is a current
    visit; the summary then carries that visit, the patient uuid the widget
    was given, and a loading indicator that follows [isValidating]. *)
Theorem CurrentVisitSummary_shows_visit_iff `{Collaborators}
    (patientUuid : string) (hook : visit.UseVisit) (shown : visit.Visit) :
  (∃ title inlineLoading uuid,
     visit.CurrentVisitSummary patientUuid hook
       = visit.VisitSummary title inlineLoading shown uuid)
  ↔ visit.isLoading hook = false ∧ visit.error hook = None
    ∧ visit.currentVisit hook = Some shown
    ∧ visit.CurrentVisitSummary patientUuid hook
        = visit.VisitSummary (t "currentVisit" "Current visit")
            (visit.isValidating hook) shown patientUuid.
Proof.
  unfold visit.CurrentVisitSummary.
  destruct (visit.isLoading hook).
  { split; [intros (? & ? & ? & ?)|intros (? & _)]; discriminate. }
  destruct (visit.error hook).
  { split; [intros (? & ? & ? & ?)|intros (_ & ? & _)]; discriminate. }
  destruct (visit.currentVisit hook) as [current|].
  - split.
    + intros (title & inlineLoading & uuid & [= _ _ <- _]).
      repeat split.
    + intros (_ & _ & [= <-] & _). eexists _, _, _. reflexivity.
  - split; [intros (? & ? & ? & ?)|intros (_ & _ & ? & _)]; discriminate.
Qed.

(** X18: in the current-visit widget loading hides everything else, and an
    error reported by [useVisit] hides a current visit that is at hand; the
    empty state is shown exactly when loading has finished without error
    and without a current visit, and its form launcher opens the start-visit
    workspace form, tagged as opened from the current-visit summary. *)
Theorem CurrentVisitSummary_precedence `{Collaborators}
    (patientUuid : string) (hook : visit.UseVisit) :
  (visit.isLoading hook = true →
     ∃ icon description,
       visit.CurrentVisitSummary patientUuid hook
         = visit.InlineLoading icon description) ∧
  (∀ failure,
     visit.isLoading hook = false → visit.error hook = Some failure →
     ∃ title,
       visit.CurrentVisitSummary patientUuid hook
         = visit.ErrorState title failure) ∧
  (∀ title text launch,
     visit.CurrentVisitSummary patientUuid hook
       = visit.EmptyState title text launch
     ↔ visit.isLoading hook = false ∧ visit.error hook = None
       ∧ visit.currentVisit hook = None
       ∧ title = t "currentVisit" "Current visit"
       ∧ text = t "noActiveVisitMessage" "active visit"
       ∧ launch = {| visit.workspace := "start-visit-workspace-form";
                     visit.openedFrom :=
                       "patient-chart-current-visit-summary" |}).
Proof.
  unfold visit.CurrentVisitSummary.
  split; [intros ->; eexists _, _; reflexivity|].
  split; [intros failure -> ->; eexists; reflexivity|].
  intros title text launch.
  destruct (visit.isLoading hook);
    [split; [discriminate | intros (? & _); discriminate]|].
  destruct (visit.error hook);
    [split; [discriminate | intros (_ & ? & _); discriminate]|].
  destruct (visit.currentVisit hook);
    [split; [discriminate | intros (_ & _ & ? & _); discriminate]|].
  split.
  - intros [= <- <- <-]. repeat split.
  - intros (_ & _ & _ & -> & -> & ->). reflexivity.
Qed.

Lemma CurrentVisitSummary_precedence_witness :
  ∃ title,
    visit.CurrentVisitSummary (H := Sample.collaborators) "p-1"
      {| visit.isLoading := false;
         visit.currentVisit := Some {| visit.uuid := "v-1" |};
         visit.error := Some {| message := "Network Error" |};
         visit.isValidating := true |}
    = visit.ErrorState title {| message := "Network Error" |}.
Proof.
  apply (CurrentVisitSummary_precedence (H := Sample.collaborators) "p-1"
           {| visit.isLoading := false;
              visit.currentVisit := Some {| visit.uuid := "v-1" |};
              visit.error := Some {| message := "Network Error" |};
              visit.isValidating := true |});
    reflexivity.
Defined.

(** X19: only a run of the effect resolves a promise: a print request and
    a print completion leave the resolved promises as they are, and no step
    ever takes a resolved promise back. *)
Theorem printStep_only_effect_resolves `{Collaborators} (s : PrintState)
    (e : PrintEvent) :
  resolved s ⊆ resolved (printStep s e) ∧
  (e ≠ RunEffect → resolved (printStep s e) = resolved s).
Proof.
  destruct s as [printing armed pending created fired].
  destruct e as [patient| |].
  - unfold printStep, onBeforeGetContent, setIsPrinting.
    destruct (bool_decide (is_Some patient)
              && truthy_string (Some headerTitle)), printing;
      simpl; split; reflexivity.
  - split; [|congruence]. simpl.
    destruct pending; simpl; [|reflexivity].
    destruct armed, printing; try reflexivity.
    apply union_subseteq_r.
  - unfold printStep, onAfterPrint, setIsPrinting.
    destruct printing; simpl; split; reflexivity.
Qed.

Lemma printStep_only_effect_resolves_witness :
  resolved
    (printStep (H := Sample.collaborators)
       (printRun (H := Sample.collaborators) idle
          [PrintRequest (Some Sample.patient); RunEffect])
       AfterPrint)
  = resolved
      (printRun (H := Sample.collaborators) idle
         [PrintRequest (Some Sample.patient); RunEffect]).
Proof.
  apply (printStep_only_effect_resolves (H := Sample.collaborators)
           (printRun (H := Sample.collaborators) idle
              [PrintRequest (Some Sample.patient); RunEffect])
           AfterPrint).
  discriminate.
Defined.
